(** * Verification of the product recommender (app.py)

    A shallow embedding of the budget filter, the two upstream clients and
    the /search request handler of app.py, with the properties of its
    specification stated and proved over the embedding.

    Conventions.
    - A Python [str] is a list of Unicode code points ([pystr]).
    - A Python [dict] with string keys is a [gmap pystr _].
    - Python [float] values are idealised as exact rationals ([Q]); the only
      infinity is the upper bound of the last bracket, written [None].
      The comparisons of the filter are unaffected by rounding: the bracket
      bounds are small integers and both [float(digits)] and the division
      by 100 are monotone and exact on them.
    - Exceptions are explicit: a computation returns [Ok v] or [Raise e].
    - Builtins of the Python runtime whose code is not part of the
      repository ([str.isdigit], [str.isspace], [float] on a [str],
      [round]) are the fields of the class [PyBuiltins]. *)

From Stdlib Require Import Ascii String QArith Qround.
From stdpp Require Import gmap list strings pretty.

Open Scope Z_scope.

(** ** Strings *)

Abbreviation pystr := (list N).

(** A literal with ASCII characters only, as a Python string. *)
Definition py (s : string) : pystr :=
  (λ a, N_of_ascii a) <$> list_ascii_of_string s.

(** [s.replace(old, new)] for a one-character [old]. *)
Definition str_replace (old : N) (new : pystr) (s : pystr) : pystr :=
  c ← s; if (c =? old)%N then new else [c].

Fixpoint take_while {A} (f : A → bool) (l : list A) : list A :=
  match l with
  | [] => []
  | x :: l' => if f x then x :: take_while f l' else []
  end.

Fixpoint drop_while {A} (f : A → bool) (l : list A) : list A :=
  match l with
  | [] => []
  | x :: l' => if f x then drop_while f l' else l
  end.

(** ** Values decoded from JSON *)

#[warnings="-register-all"] Inductive value :=
  | VNone
  | VBool (b : bool)
  | VInt (z : Z)
  | VFloat (q : Q)
  | VStr (s : pystr)
  | VList (l : list value)
  | VDict (d : gmap pystr value).

(** A product record of the shopping endpoint: a [dict] keyed by strings. *)
Abbreviation Product := (gmap pystr value).

(** [bool(v)]: what [if v:] tests. *)
Definition truthy (v : value) : bool :=
  match v with
  | VNone => false
  | VBool b => b
  | VInt z => negb (z =? 0)
  | VFloat q => negb (Qeq_bool q 0)
  | VStr s => negb (bool_decide (s = []))
  | VList l => negb (Nat.eqb (length l) 0)
  | VDict d => negb (Nat.eqb (size d) 0)
  end.

(** [type(v).__name__] *)
Definition type_name (v : value) : pystr :=
  match v with
  | VNone => py "NoneType"
  | VBool _ => py "bool"
  | VInt _ => py "int"
  | VFloat _ => py "float"
  | VStr _ => py "str"
  | VList _ => py "list"
  | VDict _ => py "dict"
  end.

(** [d.get(key, default)] *)
Definition dict_get {A} (d : gmap pystr A) (key : pystr) (dflt : A) : A :=
  match d !! key with Some v => v | None => dflt end.

(** ** Exceptions *)

Inductive exn_type :=
  | AttributeError | TypeError | ValueError | OverflowError
  | OtherException (name : pystr).

(** An exception object, an instance of [Exception]: its class and
    [str(e)]. *)
Record exn := Exn { exn_class : exn_type; exn_str : pystr }.

Inductive result (A : Type) :=
  | Ok (a : A)
  | Raise (e : exn).
Arguments Ok {A} a.
Arguments Raise {A} e.

#[global] Instance result_ret : MRet result := λ A a, Ok a.
#[global] Instance result_bind : MBind result := λ A B k m,
  match m with Ok a => k a | Raise e => Raise e end.

(** [try: m  except: h] *)
Definition try_except {A} (m : result A) (h : exn → result A) : result A :=
  match m with Ok a => Ok a | Raise e => h e end.

(** Attribute lookup on an object that lacks the attribute. *)
Definition attribute_error (v : value) (attr : string) : exn :=
  Exn AttributeError
      (py "'" ++ type_name v ++ py "' object has no attribute '" ++ py attr ++ py "'").

(** [v.replace(old, new)]: a method of [str] only. *)
Definition value_replace (v : value) (old : N) (new : pystr) : result pystr :=
  match v with
  | VStr s => Ok (str_replace old new s)
  | _ => Raise (attribute_error v "replace")
  end.

(** ** Builtins of the Python runtime *)

Class PyBuiltins := {
  (** [c.isdigit()] for the one-character string [c] *)
  str_isdigit : N → bool;
  (** [c.isspace()] *)
  str_isspace : N → bool;
  (** [float(s)] for a [str]; raises [ValueError] *)
  float_of_str : pystr → result Q;
  (** [round(x, 1)] *)
  round1 : Q → Q
}.

Definition is_ascii_digit (c : N) : bool := ((48 <=? c) && (c <=? 57))%N.

(** The value of a string of ASCII digits read in base ten. *)
Definition decimal (s : pystr) : Z :=
  foldl (λ acc c, 10 * acc + (Z.of_N c - 48)) 0 s.

(** What the examples rely on from the runtime: on ASCII characters
    [isdigit] recognises exactly 0-9, and [float] reads a non-empty string
    of ASCII digits as the decimal numeral it is. *)
Class PyBuiltinsSpec `{PyBuiltins} : Prop := {
  isdigit_ascii : ∀ c, (c < 128)%N → str_isdigit c = is_ascii_digit c;
  float_ascii_digits : ∀ s,
    s ≠ [] → Forall (λ c, is_ascii_digit c) s →
    float_of_str s = Ok (inject_Z (decimal s))
}.

(** ** The budget filter *)

Section budget_filter.
Context `{!PyBuiltins}.

(** The bracket table of [filter_by_budget]; [None] is [float('inf')]. *)
Definition budget_ranges : gmap pystr (Q * option Q) :=
  list_to_map [
    (py "Under $100", (0%Q, Some 100%Q));
    (py "$100 - $300", (100%Q, Some 300%Q));
    (py "$300 - $500", (300%Q, Some 500%Q));
    (py "$500 - $1000", (500%Q, Some 1000%Q));
    (py "Over $1000", (1000%Q, None))
  ].

(** [min_price <= price <= max_price] *)
Definition in_range (min_price : Q) (max_price : option Q) (price : Q) : bool :=
  Qle_bool min_price price &&
  match max_price with Some m => Qle_bool price m | None => true end.

(** [float(price_num) / 100 if len(price_num) > 2 else float(price_num)] *)
Definition price_of_digits (price_num : pystr) : result Q :=
  if (2 <? length price_num)%nat
  then q ← float_of_str price_num; Ok (q / 100)%Q
  else float_of_str price_num.

(** The digits of a price: [price_str.replace(',', '').replace('.', '')]
    filtered by [str.isdigit] and joined. *)
Definition price_num_of (price_str : value) : result pystr :=
  s ← value_replace price_str 44 [];
  Ok (filter (λ c, str_isdigit c) (str_replace 46 [] s)).

(** The body of the loop over [products]: the new value of [filtered]. *)
Definition budget_step (min_price : Q) (max_price : option Q)
    (filtered : list Product) (product : Product) : result (list Product) :=
  let price_str := dict_get product (py "price") (VStr []) in
  if truthy price_str then
    price_num ← price_num_of price_str;
    if bool_decide (price_num ≠ []) then
      try_except
        (price ← price_of_digits price_num;
         if in_range min_price max_price price
         then Ok (filtered ++ [product])
         else Ok filtered)
        (λ _, Ok (filtered ++ [product]))
    else Ok (filtered ++ [product])
  else Ok filtered.

(** [for product in products: ...] *)
Fixpoint budget_loop (min_price : Q) (max_price : option Q)
    (products filtered : list Product) : result (list Product) :=
  match products with
  | [] => Ok filtered
  | product :: rest =>
      filtered' ← budget_step min_price max_price filtered product;
      budget_loop min_price max_price rest filtered'
  end.

Definition filter_by_budget (products : list Product) (budget_range : pystr)
    : result (list Product) :=
  if bool_decide (budget_range = py "No preference") then Ok products
  else
    match budget_ranges !! budget_range with
    | None => Ok products
    | Some (min_price, max_price) =>
        budget_loop min_price max_price products []
    end.

End budget_filter.

(** ** A runtime for evaluating the model

    The character classes of CPython on U+0000..U+00FF (superscript one, two
    and three are digits for [str.isdigit] but not decimal digits), every
    other code point taken as neither digit nor space; [float] on unsigned
    decimal numerals such as 129999 and 4.5, anything else being rejected
    with [ValueError]; [round(x, 1)] to the nearest tenth, ties to even. *)

Definition latin1_isdigit (c : N) : bool :=
  is_ascii_digit c || bool_decide (c ∈ [178; 179; 185]%N).

Definition latin1_isspace (c : N) : bool :=
  ((9 <=? c) && (c <=? 13) || (28 <=? c) && (c <=? 32))%N
  || bool_decide (c ∈ [133; 160]%N).

Definition float_value_error (s : pystr) : exn :=
  Exn ValueError (py "could not convert string to float: '" ++ s ++ py "'").

Definition numeral_float (s : pystr) : result Q :=
  let ip := take_while is_ascii_digit s in
  match drop_while is_ascii_digit s with
  | [] =>
      if bool_decide (ip = []) then Raise (float_value_error s)
      else Ok (inject_Z (decimal ip))
  | c :: fp =>
      if (c =? 46)%N && forallb is_ascii_digit fp
         && negb (bool_decide (ip ++ fp = []))
      then Ok (inject_Z (decimal (ip ++ fp)) / inject_Z (10 ^ Z.of_nat (length fp)))%Q
      else Raise (float_value_error s)
  end.

Definition round_half_even (x : Q) : Z :=
  let f := Qfloor x in
  let r := (x - inject_Z f)%Q in
  match (r ?= 1 # 2)%Q with
  | Lt => f
  | Gt => f + 1
  | Eq => if Z.even f then f else f + 1
  end.

Definition tenths (x : Q) : Q := (inject_Z (round_half_even (x * 10)) / 10)%Q.

Definition numeral_runtime : PyBuiltins := {|
  str_isdigit := latin1_isdigit;
  str_isspace := latin1_isspace;
  float_of_str := numeral_float;
  round1 := tenths
|}.

(** ** Effects: outbound calls and console output *)

(** What [get_ai_recommendations] sends: the data the prompt template is
    filled with (the template text itself is fixed). *)
Record Prompt := {
  prompt_products : list Product;
  prompt_preferences : pystr;
  prompt_budget : pystr;
  prompt_category : pystr
}.

Inductive event :=
  | SerperPost (q : pystr) (num : Z)   (* requests.post to the shopping endpoint *)
  | GeminiGenerate (p : Prompt)         (* model.generate_content(prompt) *)
  | ConsolePrint (line : pystr).

(** A computation with effects: the events it performed, in order, and its
    outcome. *)
Definition io (A : Type) : Type := list event * result A.

#[global] Instance io_ret : MRet io := λ A a, ([], Ok a).
#[global] Instance io_bind : MBind io := λ A B k m,
  match m with
  | (t, Ok a) => let '(t', r) := k a in (t ++ t', r)
  | (t, Raise e) => (t, Raise e)
  end.

Definition emit (e : event) : io () := ([e], Ok ()).
Definition lift {A} (r : result A) : io A := ([], r).

(** [try: m  except Exception as e: h e] *)
Definition io_try {A} (m : io A) (h : exn → io A) : io A :=
  match m with
  | (t, Ok a) => (t, Ok a)
  | (t, Raise e) => let '(t', r) := h e in (t ++ t', r)
  end.

(** The decoded body of the shopping endpoint's reply: a JSON object, of
    which only the member [shopping] is read (a list of objects, following
    the annotation [List[Dict]]), or a JSON value that is not an object. *)
Inductive json_body :=
  | JObject (shopping : option (list Product))
  | JOther (v : value).

(** A [requests.Response]: what its two methods do when called. *)
Record Response := {
  raise_for_status : result ();
  json : result json_body
}.

(** The outside world of one request. *)
Record Upstream := {
  requests_post : pystr → Z → result Response;
  generate_content : Prompt → result pystr
}.

(** ** The request and its reply *)

(** The JSON body of a request to /search, its members typed as the
    interface documents them; [None] is an absent member. *)
Record SearchRequest := {
  req_query : option pystr;
  req_category : option pystr;
  req_budget_range : option pystr;
  req_num_results : option Z;
  req_brand_preference : option pystr;
  req_feature_priority : option (list pystr)
}.

Record SearchResponse := {
  resp_success : bool;
  resp_products_found : nat;
  resp_products_after_filter : nat;
  resp_avg_rating : Q;
  resp_budget_range : pystr;
  resp_ai_recommendations : pystr;
  resp_products : list Product
}.

Inductive http_body :=
  | ErrorBody (error : pystr)
  | SuccessBody (r : SearchResponse).

(** ** The clients and the handler *)

Section handler.
Context `{!PyBuiltins} (world : Upstream).

Definition search_products_serper (query : pystr) (num_results : Z)
    : io (list Product) :=
  io_try
    (emit (SerperPost query num_results);;
     response ← lift (requests_post world query num_results);
     lift (raise_for_status response);;
     data ← lift (json response);
     match data with
     | JObject shopping => mret (default [] shopping)
     | JOther v => lift (Raise (attribute_error v "get"))
     end)
    (λ e, emit (ConsolePrint (py "Error fetching products: " ++ exn_str e));;
          mret []).

Definition get_ai_recommendations (products : list Product)
    (user_preferences budget_range category : pystr) : io pystr :=
  io_try
    (let prompt := {| prompt_products := take 10 products;
                      prompt_preferences := user_preferences;
                      prompt_budget := budget_range;
                      prompt_category := category |} in
     emit (GeminiGenerate prompt);;
     lift (generate_content world prompt))
    (λ e, mret (py "Error generating recommendations: " ++ exn_str e)).

(** [float(v)] *)
Definition py_float (v : value) : result Q :=
  match v with
  | VFloat q => Ok q
  | VInt z =>
      if Z.abs z <? 2 ^ 1024 - 2 ^ 970 then Ok (inject_Z z)
      else Raise (Exn OverflowError (py "int too large to convert to float"))
  | VBool b => Ok (if b then 1 else 0)%Q
  | VStr s => float_of_str s
  | _ => Raise (Exn TypeError
           (py "float() argument must be a string or a real number, not '"
            ++ type_name v ++ py "'"))
  end.

(** [sum(ratings)] *)
Definition py_sum (ratings : list Q) : Q := foldl Qplus 0%Q ratings.

(** The statistics step of the handler: the value of [avg_rating] before
    it is rounded for the reply. *)
Definition average_rating (filtered_products : list Product) : result Q :=
  if bool_decide (filtered_products ≠ []) then
    ratings ← mapM (λ p, py_float (dict_get p (py "rating") (VInt 0)))
                 (filter (λ p, truthy (dict_get p (py "rating") VNone))
                         filtered_products);
    if bool_decide (ratings ≠ []) then
      Ok (py_sum ratings / inject_Z (Z.of_nat (length ratings)))%Q
    else Ok 0%Q
  else Ok 0%Q.

(** [sep.join(l)] *)
Fixpoint str_join (sep : pystr) (l : list pystr) : pystr :=
  match l with
  | [] => []
  | [s] => s
  | s :: l' => s ++ sep ++ str_join sep l'
  end.

(** [s.strip()] *)
Definition str_strip (s : pystr) : pystr :=
  reverse (drop_while str_isspace (reverse (drop_while str_isspace s))).

(** The query sent to the shopping endpoint: the category in front unless
    it is "Other", the brand behind when there is one. *)
Definition enhanced_query_of (user_query category brand_preference : pystr)
    : pystr :=
  let enhanced_query := user_query in
  let enhanced_query :=
    if bool_decide (category ≠ py "Other")
    then category ++ py " " ++ enhanced_query else enhanced_query in
  if bool_decide (brand_preference ≠ [])
  then enhanced_query ++ py " " ++ brand_preference else enhanced_query.

(** The preference text handed to the generator. *)
Definition preferences_text_of (user_query : pystr)
    (feature_priority : list pystr) (brand_preference : pystr) : pystr :=
  let preferences_text := user_query in
  let preferences_text :=
    if bool_decide (feature_priority ≠ [])
    then preferences_text ++ py ". Important features: "
         ++ str_join (py ", ") feature_priority
    else preferences_text in
  if bool_decide (brand_preference ≠ [])
  then preferences_text ++ py ". Preferred brand: " ++ brand_preference
  else preferences_text.

Definition search (data : SearchRequest) : io (http_body * Z) :=
  let user_query := default [] (req_query data) in
  let category := default (py "Other") (req_category data) in
  let budget_range := default (py "No preference") (req_budget_range data) in
  let num_results := default 10 (req_num_results data) in
  let brand_preference := default [] (req_brand_preference data) in
  let feature_priority := default [] (req_feature_priority data) in
  if bool_decide (str_strip user_query = []) then
    mret (ErrorBody (py "Please enter a search query"), 400)
  else
    let enhanced_query :=
      enhanced_query_of user_query category brand_preference in
    products ← search_products_serper enhanced_query num_results;
    if bool_decide (products = []) then
      mret (ErrorBody (py "No products found. Try adjusting your search query."),
            404)
    else
      filtered_products ← lift (filter_by_budget products budget_range);
      let preferences_text :=
        preferences_text_of user_query feature_priority brand_preference in
      ai_recommendations ←
        get_ai_recommendations filtered_products preferences_text
                               budget_range category;
      avg_rating ← lift (average_rating filtered_products);
      mret (SuccessBody {|
              resp_success := true;
              resp_products_found := length products;
              resp_products_after_filter := length filtered_products;
              resp_avg_rating := round1 avg_rating;
              resp_budget_range := budget_range;
              resp_ai_recommendations := ai_recommendations;
              resp_products := filtered_products |},
            200).

End handler.

(** ** Vocabulary of the properties *)

(** Builds a product record from its members. *)
Definition record (l : list (string * value)) : Product :=
  list_to_map (prod_map py id <$> l).

(** Records used by the examples. *)
Definition mug : Product :=
  record [("title", VStr (py "Mug")); ("price", VStr (py "$45.00"));
          ("rating", VFloat 4.5)].
Definition lamp : Product :=
  record [("title", VStr (py "Lamp")); ("price", VStr (py "$150.00"));
          ("rating", VNone)].
Definition desk : Product :=
  record [("title", VStr (py "Desk")); ("price", VStr (py "$300.00"));
          ("rating", VFloat 3.0)].
Definition laptop : Product :=
  record [("title", VStr (py "Laptop")); ("price", VStr (py "$1,299.99"))].
Definition sample : Product :=
  record [("title", VStr (py "Sample")); ("price", VStr (py "Free"))].
Definition poster : Product :=
  record [("title", VStr (py "Poster"))].
Definition leaflet : Product :=
  record [("title", VStr (py "Leaflet")); ("price", VStr [])].
Definition kettle : Product :=
  record [("title", VStr (py "Kettle")); ("price", VStr (py "$45.00"));
          ("rating", VStr (py "N/A"))].

(** A request for kettles, and one whose query is blank. *)
Definition kettle_request : SearchRequest := {|
  req_query := Some (py "kettle");
  req_category := Some (py "Kitchen");
  req_budget_range := Some (py "Under $100");
  req_num_results := None;
  req_brand_preference := None;
  req_feature_priority := Some [py "fast"; py "quiet"]
|}.

Definition blank_request : SearchRequest := {|
  req_query := Some (py "   ");
  req_category := None;
  req_budget_range := None;
  req_num_results := None;
  req_brand_preference := None;
  req_feature_priority := None
|}.

(** A world whose shopping endpoint answers every query with [shopping] and
    whose generator answers every prompt with [text]. *)
Definition shop_world (shopping : list Product) (text : pystr) : Upstream := {|
  requests_post := λ _ _, Ok {| raise_for_status := Ok ();
                                json := Ok (JObject (Some shopping)) |};
  generate_content := λ _, Ok text
|}.

(** A world in which the shopping endpoint cannot be reached and the
    generator is out of quota. *)
Definition broken_world : Upstream := {|
  requests_post := λ _ _,
    Raise (Exn (OtherException (py "ConnectionError")) (py "connection refused"));
  generate_content := λ _,
    Raise (Exn (OtherException (py "ResourceExhausted")) (py "quota exceeded"))
|}.

(** A world whose shopping endpoint answers with an error status. *)
Definition forbidden_world : Upstream := {|
  requests_post := λ _ _,
    Ok {| raise_for_status :=
            Raise (Exn (OtherException (py "HTTPError")) (py "403 Client Error"));
          json := Ok (JObject (Some [mug])) |};
  generate_content := λ _, Ok (py "<p>ok</p>")
|}.

Section vocabulary.
Context `{!PyBuiltins}.

(** The price member is absent, a string, or a value that [if price_str:]
    skips: the loop body reaches no method that the value lacks. *)
Definition price_readable (p : Product) : bool :=
  match p !! py "price" with
  | None | Some (VStr _) => true
  | Some v => negb (truthy v)
  end.

(** The loop body appends the product. *)
Definition budget_keeps (min_price : Q) (max_price : option Q) (p : Product)
    : bool :=
  match budget_step min_price max_price [] p with
  | Ok (_ :: _) => true
  | _ => false
  end.

(** The number the filter compares with the bracket, when there is one. *)
Definition parsed_price (p : Product) : option Q :=
  match price_num_of (dict_get p (py "price") (VStr [])) with
  | Ok price_num =>
      if bool_decide (price_num ≠ []) then
        match price_of_digits price_num with
        | Ok price => Some price
        | Raise _ => None
        end
      else None
  | Raise _ => None
  end.

(** Price parsing as the specification words it, on ASCII digits: the
    digits left after commas and periods are stripped; with more than two
    of them the last two are cents. *)
Definition spec_parse_price (s : pystr) : option Q :=
  let digits :=
    filter (λ c, is_ascii_digit c)
           (filter (λ c, c ≠ 46%N) (filter (λ c, c ≠ 44%N) s)) in
  if bool_decide (digits = []) then None
  else if (2 <? length digits)%nat
       then Some (inject_Z (decimal digits) / 100)%Q
       else Some (inject_Z (decimal digits)).

(** One of the calls that [search_products_serper] makes inside its [try]
    fails: the transport raises, [raise_for_status] raises, the body does
    not decode, or it decodes to something that is not an object. *)
Definition serper_call_fails (world : Upstream) (query : pystr)
    (num_results : Z) : bool :=
  match requests_post world query num_results with
  | Raise _ => true
  | Ok response =>
      match raise_for_status response with
      | Raise _ => true
      | Ok _ =>
          match json response with
          | Raise _ | Ok (JOther _) => true
          | Ok (JObject _) => false
          end
      end
  end.

(** The query and the result count that the handler passes to the search
    client. *)
Definition sent_query (data : SearchRequest) : pystr :=
  enhanced_query_of (default [] (req_query data))
                    (default (py "Other") (req_category data))
                    (default [] (req_brand_preference data)).

Definition sent_count (data : SearchRequest) : Z :=
  default 10 (req_num_results data).

(** The prompt data that [get_ai_recommendations] sends. *)
Definition prompt_of (products : list Product)
    (user_preferences budget_range category : pystr) : Prompt :=
  {| prompt_products := take 10 products;
     prompt_preferences := user_preferences;
     prompt_budget := budget_range;
     prompt_category := category |}.

(** The rating members that the statistics step counts. *)
Definition rated (filtered_products : list Product) : list Product :=
  filter (λ p, truthy (dict_get p (py "rating") VNone)) filtered_products.

End vocabulary.

(** The labels of the bracket table. *)
Definition bracket_labels : list pystr :=
  [py "Under $100"; py "$100 - $300"; py "$300 - $500"; py "$500 - $1000";
   py "Over $1000"].

(** The rating member as the statistics step converts it. *)
Definition rating_member (p : Product) : value :=
  dict_get p (py "rating") (VInt 0).

(** A rating that is absent, null or a number within the range of a
    double. *)
Definition plain_rating (p : Product) : Prop :=
  match dict_get p (py "rating") VNone with
  | VNone | VBool _ | VFloat _ => True
  | VInt z => Z.abs z < 2 ^ 1024 - 2 ^ 970
  | _ => False
  end.

(** What the handler derives from the request besides the query. *)
Definition sent_budget (data : SearchRequest) : pystr :=
  default (py "No preference") (req_budget_range data).

Definition sent_category (data : SearchRequest) : pystr :=
  default (py "Other") (req_category data).

Definition sent_preferences (data : SearchRequest) : pystr :=
  preferences_text_of (default [] (req_query data))
                      (default [] (req_feature_priority data))
                      (default [] (req_brand_preference data)).

(** The prompt the handler has sent for [filtered] products. *)
Definition sent_prompt (data : SearchRequest) (filtered : list Product)
    : Prompt :=
  prompt_of filtered (sent_preferences data) (sent_budget data)
            (sent_category data).

(** The text that stands as recommendation: the generator's, or the error
    message that replaces it. *)
Definition recommendation_text (world : Upstream) (prompt : Prompt) : pystr :=
  match generate_content world prompt with
  | Ok text => text
  | Raise e => py "Error generating recommendations: " ++ exn_str e
  end.

(** More records for the examples. *)
Definition crate : Product :=
  record [("title", VStr (py "Crate")); ("price", VInt 45)].
Definition ruler : Product :=
  record [("title", VStr (py "Ruler")); ("price", VStr [178%N]);
          ("rating", VInt 0)].
Definition bundle : Product :=
  record [("title", VStr (py "Bundle")); ("price", VStr (py "USD 4,500"));
          ("rating", VInt 4)].
Definition widget : Product :=
  record [("title", VStr (py "Widget")); ("price", VStr (py "$100.00"));
          ("rating", VList [VInt 5])].

(** A request with every optional member absent but the query. *)
Definition plain_request : SearchRequest := {|
  req_query := Some (py " desk ");
  req_category := None;
  req_budget_range := Some (py "Over $1000");
  req_num_results := Some 3;
  req_brand_preference := Some (py "Acme");
  req_feature_priority := None
|}.

(** A world whose shopping endpoint answers and whose generator fails. *)
Definition mute_world (shopping : list Product) : Upstream := {|
  requests_post := λ _ _, Ok {| raise_for_status := Ok ();
                                json := Ok (JObject (Some shopping)) |};
  generate_content := λ _,
    Raise (Exn (OtherException (py "ResourceExhausted")) (py "quota exceeded"))
|}.

(** A world whose shopping endpoint answers with an object that has no
    [shopping] member. *)
Definition bare_world : Upstream := {|
  requests_post := λ _ _, Ok {| raise_for_status := Ok ();
                                json := Ok (JObject None) |};
  generate_content := λ _, Ok (py "<p>ok</p>")
|}.

(** ** The handler on an untyped request body

    What [request.json] decodes is any JSON value, and the handler reads
    its members without a check of their types. The handler is modelled
    once more on such a body, member by member as the code reads them: a
    method that a value lacks raises where the code calls it. Two more
    builtins are needed, [str] as an f-string applies it and the iteration
    order of a [dict]. *)

Class PyText := {
  (** [str(v)], as an f-string formats [v] *)
  py_str : value → pystr;
  (** the keys of a [dict], in the order the [dict] iterates them *)
  dict_keys : gmap pystr value → list pystr
}.

Module Raw.

(** The data the prompt template is filled with. *)
Record Prompt := {
  prompt_products : list Product;
  prompt_preferences : pystr;
  prompt_budget : value;
  prompt_category : value
}.

Inductive event :=
  | SerperPost (q : pystr) (num : value)
  | GeminiGenerate (p : Prompt)
  | ConsolePrint (line : pystr).

Definition io (A : Type) : Type := list event * result A.

#[global] Instance io_ret : MRet io := λ A a, ([], Ok a).
#[global] Instance io_bind : MBind io := λ A B k m,
  match m with
  | (t, Ok a) => let '(t', r) := k a in (t ++ t', r)
  | (t, Raise e) => (t, Raise e)
  end.

Definition emit (e : event) : io () := ([e], Ok ()).
Definition lift {A} (r : result A) : io A := ([], r).

Definition io_try {A} (m : io A) (h : exn → io A) : io A :=
  match m with
  | (t, Ok a) => (t, Ok a)
  | (t, Raise e) => let '(t', r) := h e in (t ++ t', r)
  end.

Record Upstream := {
  requests_post : pystr → value → result Response;
  generate_content : Prompt → result pystr
}.

Record SearchResponse := {
  resp_success : bool;
  resp_products_found : nat;
  resp_products_after_filter : nat;
  resp_avg_rating : Q;
  resp_budget_range : value;
  resp_ai_recommendations : pystr;
  resp_products : list Product
}.

Inductive http_body :=
  | ErrorBody (error : pystr)
  | SuccessBody (r : SearchResponse).

(** [filter_by_budget] with a label of any type: a string goes through the
    table, a list or a dict cannot be hashed for the lookup in it, and any
    other value is no key of it. *)
Definition filter_by_budget `{!PyBuiltins} (products : list Product)
    (budget_range : value) : result (list Product) :=
  match budget_range with
  | VStr label => filter_by_budget products label
  | VList _ | VDict _ =>
      Raise (Exn TypeError
               (py "unhashable type: '" ++ type_name budget_range ++ py "'"))
  | _ => Ok products
  end.

(** The items of [sep.join(l)] for a list [l]: each must be a string. *)
Fixpoint join_items (i : nat) (l : list value) : result (list pystr) :=
  match l with
  | [] => Ok []
  | VStr s :: l' => items ← join_items (S i) l'; Ok (s :: items)
  | v :: _ =>
      Raise (Exn TypeError
               (py "sequence item " ++ py (pretty i)
                ++ py ": expected str instance, " ++ type_name v
                ++ py " found"))
  end.

Section handler.
Context `{!PyBuiltins} `{!PyText} (world : Upstream).

(** [sep.join(v)]: a list is joined item by item, a string character by
    character, a dict key by key; nothing else can be iterated. *)
Definition value_join (sep : pystr) (v : value) : result pystr :=
  match v with
  | VList l => items ← join_items 0 l; Ok (str_join sep items)
  | VStr s => Ok (str_join sep ((λ c, [c]) <$> s))
  | VDict d => Ok (str_join sep (dict_keys d))
  | _ => Raise (Exn TypeError (py "can only join an iterable"))
  end.

Definition search_products_serper (query : pystr) (num_results : value)
    : io (list Product) :=
  io_try
    (emit (SerperPost query num_results);;
     response ← lift (requests_post world query num_results);
     lift (raise_for_status response);;
     data ← lift (json response);
     match data with
     | JObject shopping => mret (default [] shopping)
     | JOther v => lift (Raise (attribute_error v "get"))
     end)
    (λ e, emit (ConsolePrint (py "Error fetching products: " ++ exn_str e));;
          mret []).

Definition prompt_of (products : list Product) (user_preferences : pystr)
    (budget_range category : value) : Prompt :=
  {| prompt_products := take 10 products;
     prompt_preferences := user_preferences;
     prompt_budget := budget_range;
     prompt_category := category |}.

Definition get_ai_recommendations (products : list Product)
    (user_preferences : pystr) (budget_range category : value) : io pystr :=
  io_try
    (let prompt := prompt_of products user_preferences budget_range category in
     emit (GeminiGenerate prompt);;
     lift (generate_content world prompt))
    (λ e, mret (py "Error generating recommendations: " ++ exn_str e)).

(** [v != "Other"] *)
Definition differs_from (v : value) (s : pystr) : bool :=
  match v with
  | VStr s' => bool_decide (s' ≠ s)
  | _ => true
  end.

Definition enhanced_query_of (user_query : pystr)
    (category brand_preference : value) : pystr :=
  let enhanced_query := user_query in
  let enhanced_query :=
    if differs_from category (py "Other")
    then py_str category ++ py " " ++ enhanced_query else enhanced_query in
  if truthy brand_preference
  then enhanced_query ++ py " " ++ py_str brand_preference
  else enhanced_query.

Definition preferences_text_of (user_query : pystr)
    (feature_priority brand_preference : value) : result pystr :=
  preferences_text ←
    (if truthy feature_priority
     then joined ← value_join (py ", ") feature_priority;
          Ok (user_query ++ py ". Important features: " ++ joined)
     else Ok user_query);
  if truthy brand_preference
  then Ok (preferences_text ++ py ". Preferred brand: "
           ++ py_str brand_preference)
  else Ok preferences_text.

(** The members of the body, with the defaults of [data.get]. *)
Definition member_query (data : gmap pystr value) : value :=
  dict_get data (py "query") (VStr []).
Definition member_category (data : gmap pystr value) : value :=
  dict_get data (py "category") (VStr (py "Other")).
Definition member_budget_range (data : gmap pystr value) : value :=
  dict_get data (py "budget_range") (VStr (py "No preference")).
Definition member_num_results (data : gmap pystr value) : value :=
  dict_get data (py "num_results") (VInt 10).
Definition member_brand_preference (data : gmap pystr value) : value :=
  dict_get data (py "brand_preference") (VStr []).
Definition member_feature_priority (data : gmap pystr value) : value :=
  dict_get data (py "feature_priority") (VList []).

Definition search (body : value) : io (http_body * Z) :=
  match body with
  | VDict data =>
      let category := member_category data in
      let budget_range := member_budget_range data in
      let num_results := member_num_results data in
      let brand_preference := member_brand_preference data in
      let feature_priority := member_feature_priority data in
      match member_query data with
      | VStr user_query =>
          if bool_decide (str_strip user_query = []) then
            mret (ErrorBody (py "Please enter a search query"), 400)
          else
            let enhanced_query :=
              enhanced_query_of user_query category brand_preference in
            products ← search_products_serper enhanced_query num_results;
            if bool_decide (products = []) then
              mret (ErrorBody
                      (py "No products found. Try adjusting your search query."),
                    404)
            else
              filtered_products ←
                lift (filter_by_budget products budget_range);
              preferences_text ←
                lift (preferences_text_of user_query feature_priority
                                          brand_preference);
              ai_recommendations ←
                get_ai_recommendations filtered_products preferences_text
                                       budget_range category;
              avg_rating ← lift (average_rating filtered_products);
              mret (SuccessBody {|
                      resp_success := true;
                      resp_products_found := length products;
                      resp_products_after_filter := length filtered_products;
                      resp_avg_rating := round1 avg_rating;
                      resp_budget_range := budget_range;
                      resp_ai_recommendations := ai_recommendations;
                      resp_products := filtered_products |},
                    200)
      | user_query => lift (Raise (attribute_error user_query "strip"))
      end
  | _ => lift (Raise (attribute_error body "get"))
  end.

(** What the handler has sent for a body whose query is the string
    [user_query]. *)
Definition sent_query (data : gmap pystr value) (user_query : pystr) : pystr :=
  enhanced_query_of user_query (member_category data)
                    (member_brand_preference data).

Definition sent_preferences (data : gmap pystr value) (user_query : pystr)
    : result pystr :=
  preferences_text_of user_query (member_feature_priority data)
                      (member_brand_preference data).

Definition sent_prompt (data : gmap pystr value)
    (filtered : list Product) (preferences_text : pystr) : Prompt :=
  prompt_of filtered preferences_text (member_budget_range data)
            (member_category data).

(** The text that stands as recommendation: the generator's, or the error
    message that replaces it. *)
Definition recommendation_text (prompt : Prompt) : pystr :=
  match generate_content world prompt with
  | Ok text => text
  | Raise e => py "Error generating recommendations: " ++ exn_str e
  end.

End handler.

End Raw.

(** A formatter for the examples: [str] of a string, of None, of a boolean
    and of an integer as CPython gives it; the other values, which no
    example formats, are shown by the name of their type. The keys of a
    dict come in the order of the map. *)
Definition plain_text : PyText := {|
  py_str v :=
    match v with
    | VStr s => s
    | VNone => py "None"
    | VBool b => if b then py "True" else py "False"
    | VInt z => py (pretty z)
    | _ => py "<" ++ type_name v ++ py ">"
    end;
  dict_keys d := (map_to_list d).*1
|}.

(** A world whose shopping endpoint answers every query with [shopping] and
    whose generator gives [reply]. *)
Definition raw_world (shopping : list Product) (reply : result pystr)
    : Raw.Upstream := {|
  Raw.requests_post := λ _ _, Ok {| raise_for_status := Ok ();
                                    json := Ok (JObject (Some shopping)) |};
  Raw.generate_content := λ _, reply
|}.

Definition out_of_quota : exn :=
  Exn (OtherException (py "ResourceExhausted")) (py "quota exceeded").

(** Bodies for the examples: a well-formed one, and bodies whose query,
    feature priorities or budget have another type than documented. *)
Definition desk_data : gmap pystr value :=
  record [("query", VStr (py "desk")); ("category", VStr (py "Office"));
          ("budget_range", VStr (py "$100 - $300"));
          ("feature_priority", VList [VStr (py "oak"); VStr (py "wide")])].
Definition null_query_data : gmap pystr value :=
  record [("query", VNone)].
Definition numbered_features_data : gmap pystr value :=
  record [("query", VStr (py "desk"));
          ("feature_priority", VList [VStr (py "oak"); VInt 1])].
Definition listed_budget_data : gmap pystr value :=
  record [("query", VStr (py "desk")); ("budget_range", VList [])].

(** ** The budget filter as a list filter *)

Section budget_facts.
Context `{!PyBuiltins}.

Lemma str_replace_nil old s :
  str_replace old [] s = filter (λ c, c ≠ old) s.
Proof.
  unfold str_replace. induction s as [|c s IH]; [done|].
  rewrite filter_cons, bind_cons, IH.
  destruct (N.eqb_spec c old) as [->|Hne].
  - by rewrite decide_False by naive_solver.
  - by rewrite decide_True.
Qed.

(** The loop body either raises or leaves [filtered] as it is, with or
    without the product appended. *)
Lemma budget_step_cases lo hi filtered p :
  (∃ e, budget_step lo hi filtered p = Raise e ∧ price_readable p = false) ∨
  (budget_step lo hi filtered p =
     Ok (if budget_keeps lo hi p then filtered ++ [p] else filtered)
   ∧ price_readable p = true).
Proof.
  unfold budget_keeps, budget_step, price_readable, dict_get, price_num_of.
  destruct (p !! py "price") as [[| | | |s| |]|]; cbn -[py];
    try (case_match; by eauto).
  - by eauto.
  - destruct (bool_decide (s = [])); cbn; [by eauto|].
    destruct (bool_decide (_ ≠ [])); cbn; [|by eauto].
    destruct (price_of_digits _) as [price|]; cbn; [|by eauto].
    destruct (in_range lo hi price); by eauto.
  - by eauto.
Qed.

Lemma bind_Ok {A B} (a : A) (k : A → result B) : Ok a ≫= k = k a.
Proof. done. Qed.

Lemma budget_loop_readable lo hi ps filtered :
  Forall (λ p, price_readable p) ps →
  budget_loop lo hi ps filtered
  = Ok (filtered ++ filter (λ p, budget_keeps lo hi p) ps).
Proof.
  intros Hps. revert filtered.
  induction Hps as [|p ps Hp _ IH]; intros filtered; cbn [budget_loop].
  - by rewrite app_nil_r.
  - destruct (budget_step_cases lo hi filtered p) as [(e & _ & Hr)|[-> _]].
    { rewrite Hr in Hp. done. }
    rewrite bind_Ok, IH, filter_cons.
    destruct (budget_keeps lo hi p).
    + rewrite decide_True by exact I. by rewrite <-app_assoc.
    + by rewrite decide_False by (by intros []).
Qed.

Lemma budget_loop_unreadable lo hi ps filtered :
  ¬ Forall (λ p, price_readable p) ps →
  ∃ e, budget_loop lo hi ps filtered = Raise e.
Proof.
  revert filtered. induction ps as [|p ps IH]; intros filtered Hps.
  - destruct Hps. constructor.
  - cbn [budget_loop].
    destruct (budget_step_cases lo hi filtered p) as [(e & -> & _)|[-> Hr]].
    + by exists e.
    + rewrite bind_Ok. apply IH. intros Hall. apply Hps. constructor; [|done].
      by rewrite Hr.
Qed.

Lemma no_preference_not_a_bracket : budget_ranges !! py "No preference" = None.
Proof. by vm_compute. Qed.

Lemma filter_by_budget_bracket b lo hi ps :
  budget_ranges !! b = Some (lo, hi) →
  filter_by_budget ps b = budget_loop lo hi ps [].
Proof.
  intros Hb. unfold filter_by_budget. case_bool_decide as Hnp.
  - rewrite Hnp, no_preference_not_a_bracket in Hb. done.
  - by rewrite Hb.
Qed.

Lemma filter_by_budget_passthrough b ps :
  budget_ranges !! b = None → filter_by_budget ps b = Ok ps.
Proof.
  intros Hb. unfold filter_by_budget. case_bool_decide; [done|]. by rewrite Hb.
Qed.

(** With a recognised bracket the filter returns exactly when every price
    is readable, and then it is a list filter. *)
Lemma filter_by_budget_readable b lo hi ps :
  budget_ranges !! b = Some (lo, hi) →
  Forall (λ p, price_readable p) ps →
  filter_by_budget ps b = Ok (filter (λ p, budget_keeps lo hi p) ps).
Proof.
  intros Hb Hps. rewrite (filter_by_budget_bracket b lo hi) by done.
  by rewrite budget_loop_readable.
Qed.

Lemma filter_by_budget_unreadable b lo hi ps :
  budget_ranges !! b = Some (lo, hi) →
  ¬ Forall (λ p, price_readable p) ps →
  ∃ e, filter_by_budget ps b = Raise e.
Proof.
  intros Hb Hps. rewrite (filter_by_budget_bracket b lo hi) by done.
  by apply budget_loop_unreadable.
Qed.

(** The five brackets. *)
Lemma budget_ranges_cases b lo hi :
  budget_ranges !! b = Some (lo, hi) →
  (b, (lo, hi)) ∈ [
    (py "Under $100", (0%Q, Some 100%Q));
    (py "$100 - $300", (100%Q, Some 300%Q));
    (py "$300 - $500", (300%Q, Some 500%Q));
    (py "$500 - $1000", (500%Q, Some 1000%Q));
    (py "Over $1000", (1000%Q, None))
  ].
Proof. intros Hb. by apply elem_of_list_to_map_2 in Hb. Qed.

(** *** What the loop body decides *)

Lemma budget_keeps_absent lo hi p :
  p !! py "price" = None ∨ p !! py "price" = Some (VStr []) →
  budget_keeps lo hi p = false.
Proof.
  unfold budget_keeps, budget_step, dict_get. by intros [-> | ->].
Qed.

Lemma budget_keeps_nodigit lo hi p s :
  p !! py "price" = Some (VStr s) → s ≠ [] →
  price_num_of (VStr s) = Ok [] →
  budget_keeps lo hi p = true.
Proof.
  intros Hp Hs Hnum. unfold budget_keeps, budget_step, dict_get.
  rewrite Hp. cbn [truthy].
  rewrite (bool_decide_eq_false_2 _ Hs). cbn [negb].
  by rewrite Hnum.
Qed.

Lemma parsed_price_readable p x :
  parsed_price p = Some x → price_readable p = true.
Proof.
  unfold parsed_price, price_readable, dict_get.
  by destruct (p !! py "price") as [[]|].
Qed.

Lemma budget_keeps_parsed lo hi p x :
  parsed_price p = Some x → budget_keeps lo hi p = in_range lo hi x.
Proof.
  unfold parsed_price, budget_keeps, budget_step, dict_get.
  destruct (p !! py "price") as [[| | | |s| |]|]; try done.
  cbn [truthy]. destruct (decide (s = [])) as [->|Hs]; [done|].
  rewrite (bool_decide_eq_false_2 _ Hs). cbn [negb].
  destruct (price_num_of (VStr s)) as [price_num|]; [|done].
  rewrite bind_Ok. case_bool_decide; [|done].
  destruct (price_of_digits price_num) as [price|]; [|done].
  intros [= ->]. rewrite bind_Ok. cbn [try_except].
  by destruct (in_range lo hi x).
Qed.

Lemma in_range_closed lo hi x :
  in_range lo (Some hi) x = true ↔ (lo <= x)%Q ∧ (x <= hi)%Q.
Proof.
  unfold in_range. by rewrite andb_true_iff, !Qle_bool_iff.
Qed.

Lemma bracket_bounds_ordered b lo hi :
  budget_ranges !! b = Some (lo, Some hi) → (lo <= hi)%Q.
Proof.
  intros Hb%budget_ranges_cases.
  repeat (apply elem_of_cons in Hb as [Hb|Hb];
          [by simplify_eq; unfold Qle; cbn; lia|]).
  by apply elem_of_nil in Hb.
Qed.

End budget_facts.

(** ** The evaluation runtime meets the interface *)

Lemma take_while_all {A} (f : A → bool) l :
  Forall (λ x, f x) l → take_while f l = l ∧ drop_while f l = [].
Proof.
  induction 1 as [|x l Hx _ [IH1 IH2]]; [done|].
  cbn. destruct (f x); [|done]. by rewrite IH1, IH2.
Qed.

Lemma numeral_runtime_spec : @PyBuiltinsSpec numeral_runtime.
Proof.
  split.
  - intros c Hc. cbn. unfold latin1_isdigit.
    rewrite bool_decide_eq_false_2, orb_false_r; [done|].
    rewrite !elem_of_cons, elem_of_nil. lia.
  - intros s Hs Hall. cbn. unfold numeral_float.
    destruct (take_while_all _ _ Hall) as [-> ->].
    by rewrite bool_decide_eq_false_2.
Qed.

(** ** Properties of the budget filter *)

Section budget_properties.
Context `{!PyBuiltins}.

(** C10. With any budget label, when the filter returns (every price is
    readable) its output is a sublist of its input: the records that are
    kept are the input's own, in their original order, and nothing else
    appears. *)
Theorem filter_by_budget_sublist (products : list Product) (budget_range : pystr) :
  Forall (λ p, price_readable p) products →
  ∃ filtered, filter_by_budget products budget_range = Ok filtered
              ∧ filtered `sublist_of` products.
Proof.
  intros Hps. destruct (budget_ranges !! budget_range) as [[lo hi]|] eqn:Hb.
  - rewrite (filter_by_budget_readable _ lo hi) by done.
    eexists; split; [done|]. apply sublist_filter.
  - rewrite filter_by_budget_passthrough by done. by eexists.
Qed.

(** C5. With a recognised bracket, filtering the output of the filter again
    with the same label returns that output unchanged. *)
Theorem filter_by_budget_idempotent (products : list Product) (budget_range : pystr) :
  is_Some (budget_ranges !! budget_range) →
  Forall (λ p, price_readable p) products →
  ∃ filtered, filter_by_budget products budget_range = Ok filtered
              ∧ filter_by_budget filtered budget_range = Ok filtered.
Proof.
  intros [[lo hi] Hb] Hps.
  rewrite (filter_by_budget_readable _ lo hi) by done.
  eexists; split; [done|].
  rewrite (filter_by_budget_readable _ lo hi); [|done|].
  - f_equal. apply list_filter_filter_l. done.
  - apply Forall_forall. intros p [_ Hp]%list_elem_of_filter.
    by eapply (proj1 (Forall_forall _ _)) in Hps.
Qed.

(** C9. With a recognised bracket, a product whose price member is absent
    or is the empty string is not in the output, while a product whose
    price is a non-empty string that yields no digit is. *)
Theorem absent_price_dropped (products : list Product) (budget_range : pystr)
    (p : Product) :
  is_Some (budget_ranges !! budget_range) →
  Forall (λ p, price_readable p) products →
  p !! py "price" = None ∨ p !! py "price" = Some (VStr []) →
  ∃ filtered,
    filter_by_budget products budget_range = Ok filtered
    ∧ (p ∉ filtered)
    ∧ (∀ q s, q ∈ products → q !! py "price" = Some (VStr s) → s ≠ [] →
              price_num_of (VStr s) = Ok [] → q ∈ filtered).
Proof.
  intros [[lo hi] Hb] Hps Hp.
  rewrite (filter_by_budget_readable _ lo hi) by done.
  eexists; split; [done|]. split.
  - rewrite list_elem_of_filter, (budget_keeps_absent lo hi p Hp). by intros [].
  - intros q s Hq Hprice Hs Hnum. apply list_elem_of_filter. split; [|done].
    by rewrite (budget_keeps_nodigit lo hi q s).
Qed.

(** C1, as amended. With a recognised bracket, a product whose price is a
    non-empty string that yields no digit is kept. *)
Theorem nodigit_price_kept (products : list Product) (budget_range : pystr)
    (p : Product) (s : pystr) :
  is_Some (budget_ranges !! budget_range) →
  Forall (λ p, price_readable p) products →
  p ∈ products →
  p !! py "price" = Some (VStr s) → s ≠ [] →
  price_num_of (VStr s) = Ok [] →
  ∃ filtered, filter_by_budget products budget_range = Ok filtered
              ∧ p ∈ filtered.
Proof.
  intros [[lo hi] Hb] Hps Hp Hprice Hs Hnum.
  rewrite (filter_by_budget_readable _ lo hi) by done.
  eexists; split; [done|]. apply list_elem_of_filter. split; [|done].
  by rewrite (budget_keeps_nodigit lo hi p s).
Qed.

(** C3, as amended. With a recognised bracket whose upper bound is finite,
    a product whose price parses to a number is kept exactly when the
    number lies in the closed range from the lower to the upper bound; at
    the upper bound itself it is kept. *)
Theorem price_at_upper_bound_kept (products : list Product)
    (budget_range : pystr) (min_price max_price : Q) (p : Product) (price : Q) :
  budget_ranges !! budget_range = Some (min_price, Some max_price) →
  Forall (λ p, price_readable p) products →
  p ∈ products →
  parsed_price p = Some price →
  ∃ filtered,
    filter_by_budget products budget_range = Ok filtered
    ∧ (p ∈ filtered ↔ (min_price <= price)%Q ∧ (price <= max_price)%Q)
    ∧ ((price == max_price)%Q → p ∈ filtered).
Proof.
  intros Hb Hps Hp Hprice.
  rewrite (filter_by_budget_readable _ min_price (Some max_price)) by done.
  eexists; split; [done|].
  assert (p ∈ filter (λ p, budget_keeps min_price (Some max_price) p) products
          ↔ (min_price <= price)%Q ∧ (price <= max_price)%Q) as Hiff.
  { rewrite list_elem_of_filter, (budget_keeps_parsed _ _ p price) by done.
    rewrite Is_true_true, in_range_closed. split; [by intros [? _]|done]. }
  split; [done|]. intros Heq. apply Hiff. rewrite Heq. split.
  - by eapply bracket_bounds_ordered.
  - apply Qle_refl.
Qed.

End budget_properties.

(** *** Price parsing on ASCII digits *)

Section price_parsing.
Context `{!PyBuiltins} `{!PyBuiltinsSpec}.

Lemma filter_ext_in {A} (P Q : A → Prop) `{!∀ x, Decision (P x)}
    `{!∀ x, Decision (Q x)} (l : list A) :
  (∀ x, x ∈ l → (P x ↔ Q x)) → filter P l = filter Q l.
Proof.
  induction l as [|x l IH]; intros HPQ; [done|].
  rewrite !filter_cons, IH by (intros y Hy; apply HPQ; by right).
  apply decide_ext, HPQ. by left.
Qed.

Lemma ascii_digit_is_ascii c : is_ascii_digit c → (c < 128)%N.
Proof.
  unfold is_ascii_digit. intros [_ ?%Is_true_true%N.leb_le]%andb_True. lia.
Qed.

Lemma price_num_ascii s :
  Forall (λ c, str_isdigit c → is_ascii_digit c) s →
  price_num_of (VStr s)
  = Ok (filter (λ c, is_ascii_digit c)
          (filter (λ c, c ≠ 46%N) (filter (λ c, c ≠ 44%N) s))).
Proof.
  intros Hs. unfold price_num_of. cbn [value_replace]. rewrite bind_Ok.
  rewrite !str_replace_nil. f_equal.
  apply filter_ext_in. intros c [_ [_ Hc]%list_elem_of_filter]%list_elem_of_filter.
  split.
  - by apply (proj1 (Forall_forall _ _) Hs).
  - intros Hd. by rewrite isdigit_ascii by by apply ascii_digit_is_ascii.
Qed.

Lemma parsed_price_ascii (p : Product) s :
  p !! py "price" = Some (VStr s) →
  Forall (λ c, str_isdigit c → is_ascii_digit c) s →
  parsed_price p = spec_parse_price s.
Proof.
  intros Hp Hs. unfold parsed_price, spec_parse_price, dict_get.
  rewrite Hp, price_num_ascii by done.
  set (digits := filter _ (filter _ (filter _ s))).
  destruct (decide (digits = [])) as [Hd|Hd].
  - by rewrite (bool_decide_eq_true_2 _ Hd), bool_decide_eq_false_2 by naive_solver.
  - rewrite (bool_decide_eq_false_2 _ Hd), (bool_decide_eq_true_2 _ Hd).
    unfold price_of_digits. rewrite float_ascii_digits; [|done|].
    + by destruct (2 <? length digits)%nat.
    + apply Forall_forall. by intros c [? _]%list_elem_of_filter.
Qed.

Lemma ascii_only_digits s :
  Forall (λ c, (c < 128)%N) s →
  Forall (λ c, str_isdigit c → is_ascii_digit c) s.
Proof.
  intros Hs. eapply Forall_impl; [exact Hs|].
  intros c Hc. by rewrite isdigit_ascii.
Qed.

Lemma budget_keeps_ascii (lo : Q) (hi : option Q) (p : Product) s x :
  p !! py "price" = Some (VStr s) →
  Forall (λ c, (c < 128)%N) s →
  spec_parse_price s = Some x →
  budget_keeps lo hi p = in_range lo hi x.
Proof.
  intros Hp Hs Hx. apply budget_keeps_parsed.
  by rewrite (parsed_price_ascii p s) by auto using ascii_only_digits.
Qed.

End price_parsing.

Section price_examples.
Context `{!PyBuiltins} `{!PyBuiltinsSpec}.

Local Ltac ascii_price :=
  first [ reflexivity
        | by (apply Forall_forall; intros c Hc;
              repeat (apply elem_of_cons in Hc as [->|Hc]; [done|]);
              by apply elem_of_nil in Hc) ].

(** C4. The price the filter compares is made of the digits of the price
    string with commas and periods stripped, read as cents when there are
    more than two of them and as whole dollars otherwise; "$1,299.99"
    parses to 1299.99 and is kept by "Over $1000"; under "Under $100" a
    product priced "$45.00" is kept and one priced "$150.00" is dropped. *)
Theorem price_parsing :
  (∀ (p : Product) (s : pystr),
     p !! py "price" = Some (VStr s) →
     Forall (λ c, str_isdigit c → is_ascii_digit c) s →
     parsed_price p = spec_parse_price s)
  ∧ (∃ price, parsed_price laptop = Some price ∧ (price == 1299.99)%Q)
  ∧ filter_by_budget [laptop] (py "Over $1000") = Ok [laptop]
  ∧ filter_by_budget [mug; lamp] (py "Under $100") = Ok [mug].
Proof.
  split; [exact parsed_price_ascii|]. split; [|split].
  - exists (inject_Z 129999 / 100)%Q. split; [|done].
    rewrite (parsed_price_ascii laptop (py "$1,299.99")); [done|done|].
    apply ascii_only_digits. ascii_price.
  - rewrite (filter_by_budget_readable _ 1000%Q None); [|done|].
    + rewrite filter_cons.
      rewrite (budget_keeps_ascii _ _ laptop (py "$1,299.99")
                 (inject_Z 129999 / 100)%Q); [done|done| |done].
      ascii_price.
    + repeat constructor.
  - rewrite (filter_by_budget_readable _ 0%Q (Some 100%Q)); [|done|].
    + rewrite !filter_cons.
      rewrite (budget_keeps_ascii _ _ mug (py "$45.00")
                 (inject_Z 4500 / 100)%Q); [|done| |done]; [|ascii_price].
      rewrite (budget_keeps_ascii _ _ lamp (py "$150.00")
                 (inject_Z 15000 / 100)%Q); [|done| |done]; [|ascii_price].
      done.
    + repeat constructor.
Qed.

End price_examples.

(** *** The filter at concrete inputs *)

(** A label outside the table, like "No preference", passes every product. *)
Example unrecognised_label_passes_all :
  @filter_by_budget numeral_runtime [poster; lamp] (py "No preference")
  = Ok [poster; lamp] ∧
  @filter_by_budget numeral_runtime [poster; lamp] (py "under 100")
  = Ok [poster; lamp].
Proof. by split. Qed.

(** A price that is a number, not a string, has no [replace]: the filter
    raises [AttributeError]. *)
Example numeric_price_raises :
  @filter_by_budget numeral_runtime [mug; record [("price", VInt 45)]]
                    (py "Under $100")
  = Raise (attribute_error (VInt 45) "replace").
Proof. done. Qed.

(** Superscript two is a digit for [str.isdigit] and no numeral for
    [float]: the conversion raises inside the [try] and the product is
    kept, whatever the bracket. *)
Example superscript_price_kept :
  @filter_by_budget numeral_runtime [record [("price", VStr [178%N])]]
                    (py "Over $1000")
  = Ok [record [("price", VStr [178%N])]].
Proof. done. Qed.

(** A price in euros, with a comma before the cents: the euro sign
    (U+20AC) is no digit and the comma is stripped. *)
Example euro_price_parsed :
  @parsed_price numeral_runtime
     (record [("price", VStr ([8364%N] ++ py "45,00"))])
  = Some (inject_Z 4500 / 100)%Q.
Proof. done. Qed.

(** Two digits or fewer are whole dollars, and with more the last two are
    always cents: "$45" is 45, "$4.5" is 45 too, and "$1,299" is 12.99. *)
Example short_prices :
  @parsed_price numeral_runtime (record [("price", VStr (py "$45"))])
  = Some (inject_Z 45) ∧
  @parsed_price numeral_runtime (record [("price", VStr (py "$4.5"))])
  = Some (inject_Z 45) ∧
  @parsed_price numeral_runtime (record [("price", VStr (py "$1,299"))])
  = Some (inject_Z 1299 / 100)%Q.
Proof. by repeat split. Qed.

Local Ltac readable_list := repeat (constructor; try exact I).

Lemma filter_by_budget_sublist_witness :
  Forall (λ p, @price_readable p) [mug; lamp; poster; sample] ∧
  ∃ filtered,
    @filter_by_budget numeral_runtime [mug; lamp; poster; sample]
                      (py "Under $100") = Ok filtered
    ∧ filtered `sublist_of` [mug; lamp; poster; sample].
Proof.
  split; [readable_list|].
  apply (@filter_by_budget_sublist numeral_runtime). readable_list.
Defined.

Lemma filter_by_budget_idempotent_witness :
  is_Some (budget_ranges !! py "$100 - $300") ∧
  Forall (λ p, @price_readable p) [mug; lamp; desk; sample] ∧
  ∃ filtered,
    @filter_by_budget numeral_runtime [mug; lamp; desk; sample]
                      (py "$100 - $300") = Ok filtered
    ∧ @filter_by_budget numeral_runtime filtered (py "$100 - $300")
      = Ok filtered.
Proof.
  split; [by eexists|]. split; [readable_list|].
  apply (@filter_by_budget_idempotent numeral_runtime);
    [by eexists | readable_list].
Defined.

Lemma absent_price_dropped_witness :
  is_Some (budget_ranges !! py "Under $100") ∧
  Forall (λ p, @price_readable p) [mug; poster; sample] ∧
  poster !! py "price" = None ∧
  ∃ filtered,
    @filter_by_budget numeral_runtime [mug; poster; sample] (py "Under $100")
    = Ok filtered
    ∧ (poster ∉ filtered)
    ∧ (∀ q s, q ∈ [mug; poster; sample] →
              q !! py "price" = Some (VStr s) → s ≠ [] →
              @price_num_of numeral_runtime (VStr s) = Ok [] → q ∈ filtered).
Proof.
  split; [by eexists|]. split; [readable_list|]. split; [done|].
  apply (@absent_price_dropped numeral_runtime);
    [by eexists | readable_list | by left].
Defined.

Lemma nodigit_price_kept_witness :
  is_Some (budget_ranges !! py "Under $100") ∧
  Forall (λ p, @price_readable p) [mug; poster; sample] ∧
  sample ∈ [mug; poster; sample] ∧
  sample !! py "price" = Some (VStr (py "Free")) ∧
  @price_num_of numeral_runtime (VStr (py "Free")) = Ok [] ∧
  ∃ filtered,
    @filter_by_budget numeral_runtime [mug; poster; sample] (py "Under $100")
    = Ok filtered
    ∧ sample ∈ filtered.
Proof.
  split; [by eexists|]. split; [readable_list|].
  split; [by do 2 right; left|]. split; [done|]. split; [done|].
  apply (@nodigit_price_kept numeral_runtime _ _ _ (py "Free"));
    [by eexists | readable_list | by do 2 right; left | done | done | done].
Defined.

(** C1 as stated fails: under "Under $100" a record without a price member
    and a record whose price is the empty string are both dropped. *)
Lemma absent_price_not_kept :
  is_Some (budget_ranges !! py "Under $100") ∧
  poster !! py "price" = None ∧
  leaflet !! py "price" = Some (VStr []) ∧
  @filter_by_budget numeral_runtime [poster; leaflet] (py "Under $100") = Ok [] ∧
  ¬ ∃ filtered,
      @filter_by_budget numeral_runtime [poster; leaflet] (py "Under $100")
      = Ok filtered
      ∧ poster ∈ filtered.
Proof.
  split; [by eexists|]. split; [done|]. split; [done|]. split; [done|].
  intros (filtered & [= <-] & Hin). by apply elem_of_nil in Hin.
Qed.

Lemma price_at_upper_bound_kept_witness :
  budget_ranges !! py "$100 - $300" = Some (100%Q, Some 300%Q) ∧
  Forall (λ p, @price_readable p) [mug; desk] ∧
  desk ∈ [mug; desk] ∧
  @parsed_price numeral_runtime desk = Some (inject_Z 30000 / 100)%Q ∧
  ∃ filtered,
    @filter_by_budget numeral_runtime [mug; desk] (py "$100 - $300")
    = Ok filtered
    ∧ (desk ∈ filtered ↔
       (100 <= inject_Z 30000 / 100)%Q ∧ (inject_Z 30000 / 100 <= 300)%Q)
    ∧ ((inject_Z 30000 / 100 == 300)%Q → desk ∈ filtered).
Proof.
  split; [done|]. split; [readable_list|]. split; [by right; left|].
  split; [done|].
  apply (@price_at_upper_bound_kept numeral_runtime);
    [done | readable_list | by right; left | done].
Defined.

(** C3 as stated fails: a desk priced "$300.00", exactly the upper bound of
    "$100 - $300", is kept by that bracket. *)
Lemma upper_bound_not_dropped :
  budget_ranges !! py "$100 - $300" = Some (100%Q, Some 300%Q) ∧
  (∃ price, @parsed_price numeral_runtime desk = Some price
            ∧ (price == 300)%Q) ∧
  @filter_by_budget numeral_runtime [desk] (py "$100 - $300") = Ok [desk].
Proof.
  split; [done|]. split; [|done].
  exists (inject_Z 30000 / 100)%Q. by split.
Qed.

Lemma price_parsing_witness :
  (∃ price, @parsed_price numeral_runtime laptop = Some price
            ∧ (price == 1299.99)%Q)
  ∧ @filter_by_budget numeral_runtime [laptop] (py "Over $1000") = Ok [laptop]
  ∧ @filter_by_budget numeral_runtime [mug; lamp] (py "Under $100") = Ok [mug].
Proof.
  exact (proj2 (@price_parsing numeral_runtime numeral_runtime_spec)).
Defined.

(** ** The upstream clients *)

Section client_facts.
Context (world : Upstream).

Lemma search_products_serper_cases query num_results :
  (serper_call_fails world query num_results = true ∧
   ∃ line, search_products_serper world query num_results
           = ([SerperPost query num_results; ConsolePrint line], Ok []))
  ∨ (serper_call_fails world query num_results = false ∧
     ∃ products, search_products_serper world query num_results
                 = ([SerperPost query num_results], Ok products)).
Proof.
  unfold serper_call_fails, search_products_serper.
  destruct (requests_post world query num_results) as [response|e]; cbn -[py].
  2: { left. eauto. }
  destruct (raise_for_status response) as [[]|e]; cbn -[py].
  2: { left. eauto. }
  destruct (json response) as [[shopping|v]|e]; cbn -[py];
    [right|left|left]; eauto.
Qed.

Lemma get_ai_recommendations_cases products user_preferences budget_range category :
  get_ai_recommendations world products user_preferences budget_range category
  = ([GeminiGenerate
        (prompt_of products user_preferences budget_range category)],
     Ok match generate_content world
                (prompt_of products user_preferences budget_range category) with
        | Ok text => text
        | Raise e => py "Error generating recommendations: " ++ exn_str e
        end).
Proof.
  unfold get_ai_recommendations, prompt_of.
  by destruct (generate_content world _).
Qed.

End client_facts.

(** ** The request handler *)

Section handler_properties.
Context `{!PyBuiltins} (world : Upstream).

(** C6. A request whose query is empty, or only white space, is answered
    with status 400 and an error message, and no event takes place: the
    handler makes no outbound call. *)
Theorem empty_query_rejected (data : SearchRequest) :
  str_strip (default [] (req_query data)) = [] →
  ∃ error, search world data = ([], Ok (ErrorBody error, 400)).
Proof.
  intros Hq. unfold search. rewrite (bool_decide_eq_true_2 _ Hq). by eexists.
Qed.

(** C7. When the query is not blank and the search client returns the
    empty list, the handler answers with status 404 and an error message,
    and the events of the request contain no call of the generator. *)
Theorem no_results_not_found (data : SearchRequest) (trace : list event) :
  str_strip (default [] (req_query data)) ≠ [] →
  search_products_serper world (sent_query data) (sent_count data)
  = (trace, Ok []) →
  ∃ error, search world data = (trace, Ok (ErrorBody error, 404))
           ∧ ∀ prompt, GeminiGenerate prompt ∉ trace.
Proof.
  intros Hq Hsearch. unfold search.
  rewrite (bool_decide_eq_false_2 _ Hq).
  fold (sent_query data) (sent_count data). rewrite Hsearch.
  eexists. split.
  - unfold mbind, io_bind. rewrite bool_decide_eq_true_2 by done.
    unfold mret, io_ret. by rewrite app_nil_r.
  - intros prompt.
    destruct (search_products_serper_cases world (sent_query data)
                (sent_count data)) as [(_ & line & Hs)|(_ & products & Hs)];
      rewrite Hs in Hsearch; injection Hsearch as <-;
      rewrite ?elem_of_cons, elem_of_nil; intuition discriminate.
Qed.

(** An exception that leaves the handler was raised by its own budget
    filter or statistics step, after the search client returned. *)
Lemma search_raises (data : SearchRequest) trace e :
  search world data = (trace, Raise e) →
  ∃ trace' products,
    search_products_serper world (sent_query data) (sent_count data)
    = (trace', Ok products)
    ∧ (filter_by_budget products
         (default (py "No preference") (req_budget_range data)) = Raise e
       ∨ ∃ filtered,
           filter_by_budget products
             (default (py "No preference") (req_budget_range data))
           = Ok filtered
           ∧ average_rating filtered = Raise e).
Proof.
  unfold search. case_bool_decide; [done|].
  fold (sent_query data) (sent_count data).
  destruct (search_products_serper_cases world (sent_query data)
              (sent_count data)) as [(_ & line & ->)|(_ & products & ->)];
    [done|].
  cbn [mbind io_bind]. case_bool_decide; [done|].
  destruct (filter_by_budget products _) as [filtered|e'] eqn:Hfilter.
  - cbn [mbind io_bind lift]. rewrite get_ai_recommendations_cases.
    destruct (average_rating filtered) as [avg|e'] eqn:Havg; [done|].
    cbn [mbind io_bind]. intros [= <- <-]. by eauto 10.
  - cbn [mbind io_bind lift]. intros [= <- <-]. by eauto 10.
Qed.

(** C8. Neither client raises, whatever the upstream does: when a call of
    the search client fails (transport error, error status reported by
    [raise_for_status], body that does not decode to an object) it returns
    the empty list, and when the generator fails the text returned in
    place of the recommendation is an error message. An exception that
    leaves the handler comes from its own filter or statistics step. *)
Theorem upstream_failures_contained :
  (∀ query num_results,
     ∃ trace products,
       search_products_serper world query num_results = (trace, Ok products)
       ∧ (serper_call_fails world query num_results → products = []))
  ∧ (∀ products user_preferences budget_range category,
       ∃ trace text,
         get_ai_recommendations world products user_preferences
                                budget_range category = (trace, Ok text)
         ∧ (∀ e, generate_content world
                   (prompt_of products user_preferences budget_range category)
                 = Raise e →
                 text = py "Error generating recommendations: " ++ exn_str e))
  ∧ (∀ data trace e,
       search world data = (trace, Raise e) →
       ∃ trace' products,
         search_products_serper world (sent_query data) (sent_count data)
         = (trace', Ok products)
         ∧ (filter_by_budget products
              (default (py "No preference") (req_budget_range data)) = Raise e
            ∨ ∃ filtered,
                filter_by_budget products
                  (default (py "No preference") (req_budget_range data))
                = Ok filtered
                ∧ average_rating filtered = Raise e)).
Proof.
  split; [|split].
  - intros query num_results.
    destruct (search_products_serper_cases world query num_results)
      as [(Hf & line & ->)|(Hf & products & ->)].
    + by eauto.
    + do 2 eexists. split; [done|]. by rewrite Hf.
  - intros products user_preferences budget_range category.
    rewrite get_ai_recommendations_cases. do 2 eexists. split; [done|].
    by intros e ->.
  - intros data trace e. apply search_raises.
Qed.




End handler_properties.

(** *** The handler at concrete requests *)

Lemma empty_query_rejected_witness :
  @str_strip numeral_runtime (default [] (req_query blank_request)) = [] ∧
  ∃ error, @search numeral_runtime (shop_world [mug] (py "<p>Mug</p>"))
                   blank_request
           = ([], Ok (ErrorBody error, 400)).
Proof.
  split; [done|]. by apply (@empty_query_rejected numeral_runtime).
Defined.

Lemma no_results_not_found_witness :
  @str_strip numeral_runtime (default [] (req_query kettle_request)) ≠ [] ∧
  ∃ error,
    @search numeral_runtime (shop_world [] (py "<p>none</p>")) kettle_request
    = ([SerperPost (py "Kitchen kettle") 10], Ok (ErrorBody error, 404))
    ∧ ∀ prompt, GeminiGenerate prompt ∉ [SerperPost (py "Kitchen kettle") 10].
Proof.
  split; [done|].
  by apply (@no_results_not_found numeral_runtime).
Defined.

Lemma upstream_failures_contained_witness :
  serper_call_fails broken_world (py "kettle") 10 = true ∧
  serper_call_fails forbidden_world (py "kettle") 10 = true ∧
  (∃ trace products,
     search_products_serper broken_world (py "kettle") 10
     = (trace, Ok products) ∧ products = []) ∧
  (∃ trace products,
     search_products_serper forbidden_world (py "kettle") 10
     = (trace, Ok products) ∧ products = []) ∧
  (∃ trace text,
     get_ai_recommendations broken_world [mug] (py "kettle")
                            (py "Under $100") (py "Kitchen")
     = (trace, Ok text)
     ∧ text = py "Error generating recommendations: quota exceeded").
Proof.
  split; [done|]. split; [done|]. split; [|split].
  - destruct (proj1 (@upstream_failures_contained numeral_runtime broken_world)
                (py "kettle") 10) as (trace & products & Hs & Hf).
    exists trace, products. split; [done|]. by apply Hf.
  - destruct (proj1 (@upstream_failures_contained numeral_runtime forbidden_world)
                (py "kettle") 10) as (trace & products & Hs & Hf).
    exists trace, products. split; [done|]. by apply Hf.
  - destruct (proj1 (proj2 (@upstream_failures_contained numeral_runtime
                              broken_world))
                [mug] (py "kettle") (py "Under $100") (py "Kitchen"))
      as (trace & text & Hg & Hf).
    exists trace, text. split; [done|]. by rewrite (Hf _ eq_refl).
Defined.


(** C2. The statistics step does not skip a rating that does not parse:
    on a filtered product rated "N/A" the conversion by [float], which no
    [try] guards, raises [ValueError]; the average is not computed and the
    exception leaves the handler, after the search and the generation have
    taken place. *)
Lemma unparsable_rating_raises :
  kettle !! py "rating" = Some (VStr (py "N/A")) ∧
  @filter_by_budget numeral_runtime [kettle] (py "Under $100") = Ok [kettle] ∧
  @average_rating numeral_runtime [kettle]
  = Raise (float_value_error (py "N/A")) ∧
  (@search numeral_runtime (shop_world [kettle] (py "<p>Kettle</p>"))
           kettle_request).2
  = Raise (float_value_error (py "N/A")).
Proof. by repeat split. Qed.

(** ** Further properties of the budget filter *)

Section more_budget.
Context `{!PyBuiltins}.

Lemma budget_step_raise lo hi filtered p e :
  budget_step lo hi filtered p = Raise e →
  ∃ v, p !! py "price" = Some v ∧ truthy v ∧ (∀ s, v ≠ VStr s)
       ∧ e = attribute_error v "replace".
Proof.
  unfold budget_step, dict_get, price_num_of.
  destruct (p !! py "price") as [v|]; [|done].
  destruct (truthy v) eqn:Hv; [|done].
  destruct v as [| | | |s| |]; cbn -[py attribute_error];
    try (intros [= <-]; eexists; by rewrite ?Hv).
  destruct (bool_decide (_ ≠ [])); [|done].
  destruct (price_of_digits _) as [price|]; cbn; [|done].
  by destruct (in_range lo hi price).
Qed.

Lemma budget_loop_raise lo hi ps filtered e :
  budget_loop lo hi ps filtered = Raise e →
  ∃ p v, p ∈ ps ∧ p !! py "price" = Some v ∧ truthy v ∧ (∀ s, v ≠ VStr s)
         ∧ e = attribute_error v "replace".
Proof.
  revert filtered. induction ps as [|p ps IH]; intros filtered; [done|].
  cbn [budget_loop].
  destruct (budget_step lo hi filtered p) as [filtered'|e'] eqn:Hstep.
  - rewrite bind_Ok. intros (q & v & Hq & Hrest)%IH. exists q, v.
    split; [by right|done].
  - intros [= ->]. apply budget_step_raise in Hstep as (v & Hrest).
    exists p, v. split; [by left|done].
Qed.

Lemma unreadable_price p v :
  p !! py "price" = Some v → truthy v → (∀ s, v ≠ VStr s) →
  price_readable p = false.
Proof.
  intros Hp Hv Hs. unfold price_readable. rewrite Hp.
  destruct v; try by (destruct (truthy _); done).
  by destruct (Hs s).
Qed.

Lemma budget_loop_raise_first lo hi ps filtered e :
  budget_loop lo hi ps filtered = Raise e →
  ∃ before p after v,
    ps = before ++ p :: after
    ∧ Forall (λ q, price_readable q) before
    ∧ p !! py "price" = Some v ∧ truthy v ∧ (∀ s, v ≠ VStr s)
    ∧ e = attribute_error v "replace".
Proof.
  revert filtered. induction ps as [|p ps IH]; intros filtered; [done|].
  cbn [budget_loop].
  destruct (budget_step_cases lo hi filtered p) as [(e' & Hstep & _)|[Hstep Hr]];
    rewrite Hstep.
  - intros [= ->]. apply budget_step_raise in Hstep as (v & Hv).
    exists [], p, ps, v. split; [done|]. split; [constructor|done].
  - rewrite bind_Ok.
    intros (before & q & after & v & -> & Hbefore & Hv)%IH.
    exists (p :: before), q, after, v. split; [done|].
    split; [|done]. constructor; [by rewrite Hr|done].
Qed.

(** X1. With a recognised bracket the filter raises exactly when some
    product carries a price that is truthy and not a string; the exception
    is the [AttributeError] of calling [replace] on the price of the first
    such product of the list. *)
Theorem filter_by_budget_raises (products : list Product) (budget_range : pystr) :
  is_Some (budget_ranges !! budget_range) →
  ((∃ e, filter_by_budget products budget_range = Raise e) ↔
   ∃ p v, p ∈ products ∧ p !! py "price" = Some v ∧ truthy v
          ∧ ∀ s, v ≠ VStr s)
  ∧ ∀ e, filter_by_budget products budget_range = Raise e →
         ∃ before p after v,
           products = before ++ p :: after
           ∧ Forall (λ q, price_readable q) before
           ∧ p !! py "price" = Some v ∧ truthy v ∧ (∀ s, v ≠ VStr s)
           ∧ e = attribute_error v "replace".
Proof.
  intros [[lo hi] Hb]. rewrite (filter_by_budget_bracket _ lo hi) by done.
  split; [split|].
  - intros (e & (p & v & Hp & Hv & Ht & Hs & _)%budget_loop_raise).
    by exists p, v.
  - intros (p & v & Hp & Hv & Ht & Hs). apply budget_loop_unreadable.
    intros Hall. apply (proj1 (Forall_forall _ _) Hall) in Hp.
    by rewrite (unreadable_price p v) in Hp.
  - intros e. apply budget_loop_raise_first.
Qed.

Lemma unlisted_label_lookup b :
  b ∉ bracket_labels → budget_ranges !! b = None.
Proof.
  intros Hb. destruct (budget_ranges !! b) as [[lo hi]|] eqn:Hl; [|done].
  destruct Hb. apply budget_ranges_cases in Hl. unfold bracket_labels.
  repeat (apply elem_of_cons in Hl as [Hl|Hl];
          [injection Hl as -> _ _; set_solver|]).
  by apply elem_of_nil in Hl.
Qed.

(** X2. A label that is not exactly one of the five bracket labels leaves
    the product list as it is, whatever the products: nothing is parsed
    and nothing can raise. *)
Theorem unlisted_label_passthrough (products : list Product)
    (budget_range : pystr) :
  budget_range ∉ bracket_labels →
  filter_by_budget products budget_range = Ok products.
Proof.
  intros Hb. apply filter_by_budget_passthrough.
  by apply unlisted_label_lookup.
Qed.

(** X3. The filter works product by product: filtering a concatenation is
    concatenating the filtered parts. *)
Theorem filter_by_budget_app (products1 products2 : list Product)
    (budget_range : pystr) :
  Forall (λ p, price_readable p) products1 →
  Forall (λ p, price_readable p) products2 →
  ∃ filtered1 filtered2,
    filter_by_budget products1 budget_range = Ok filtered1
    ∧ filter_by_budget products2 budget_range = Ok filtered2
    ∧ filter_by_budget (products1 ++ products2) budget_range
      = Ok (filtered1 ++ filtered2).
Proof.
  intros H1 H2. destruct (budget_ranges !! budget_range) as [[lo hi]|] eqn:Hb.
  - rewrite !(filter_by_budget_readable _ lo hi)
      by (try apply Forall_app; done).
    do 2 eexists. split; [done|]. split; [done|]. by rewrite filter_app.
  - rewrite !filter_by_budget_passthrough by done. by do 2 eexists.
Qed.

Lemma budget_keeps_unconvertible lo hi p s digits e :
  p !! py "price" = Some (VStr s) →
  price_num_of (VStr s) = Ok digits → digits ≠ [] →
  float_of_str digits = Raise e →
  budget_keeps lo hi p = true.
Proof.
  intros Hp Hnum Hd Hfloat.
  assert (s ≠ []) as Hs.
  { intros ->. unfold price_num_of in Hnum. by simplify_eq/=. }
  unfold budget_keeps, budget_step, dict_get. rewrite Hp. cbn [truthy].
  rewrite (bool_decide_eq_false_2 _ Hs). cbn [negb].
  rewrite Hnum, bind_Ok, (bool_decide_eq_true_2 _ Hd).
  unfold price_of_digits. rewrite Hfloat. by destruct (2 <? _)%nat.
Qed.

(** X4. A price whose digits [float] rejects fails open: with a recognised
    bracket the product is kept. *)
Theorem unconvertible_price_kept (products : list Product)
    (budget_range : pystr) (p : Product) (s digits : pystr) (e : exn) :
  is_Some (budget_ranges !! budget_range) →
  Forall (λ p, price_readable p) products →
  p ∈ products →
  p !! py "price" = Some (VStr s) →
  price_num_of (VStr s) = Ok digits → digits ≠ [] →
  float_of_str digits = Raise e →
  ∃ filtered, filter_by_budget products budget_range = Ok filtered
              ∧ p ∈ filtered.
Proof.
  intros [[lo hi] Hb] Hps Hp Hprice Hnum Hd Hfloat.
  rewrite (filter_by_budget_readable _ lo hi) by done.
  eexists; split; [done|]. apply list_elem_of_filter. split; [|done].
  by rewrite (budget_keeps_unconvertible lo hi p s digits e).
Qed.

End more_budget.

Section more_parsing.
Context `{!PyBuiltins} `{!PyBuiltinsSpec}.

Lemma separators_are_no_digits c :
  str_isdigit c → c ≠ 44%N ∧ c ≠ 46%N.
Proof.
  intros Hc. split; intros ->; by rewrite isdigit_ascii in Hc.
Qed.

Lemma price_num_digits s :
  price_num_of (VStr s) = Ok (filter (λ c, str_isdigit c) s).
Proof.
  unfold price_num_of. cbn [value_replace]. rewrite bind_Ok.
  rewrite !str_replace_nil. f_equal.
  rewrite !list_filter_filter_l; [done|..];
    intros c Hc; by apply separators_are_no_digits.
Qed.

Lemma budget_keeps_by_digits (lo : Q) (hi : option Q) (p1 p2 : Product) s1 s2 :
  p1 !! py "price" = Some (VStr s1) → p2 !! py "price" = Some (VStr s2) →
  s1 ≠ [] → s2 ≠ [] →
  filter (λ c, str_isdigit c) s1 = filter (λ c, str_isdigit c) s2 →
  budget_keeps lo hi p1 = budget_keeps lo hi p2.
Proof.
  intros Hp1 Hp2 Hs1 Hs2 Hd. unfold budget_keeps, budget_step, dict_get.
  rewrite Hp1, Hp2. cbn [truthy].
  rewrite (bool_decide_eq_false_2 _ Hs1), (bool_decide_eq_false_2 _ Hs2).
  cbn [negb]. rewrite !price_num_digits, !bind_Ok, Hd.
  destruct (bool_decide (_ ≠ [])); [|done].
  destruct (price_of_digits _) as [price|]; cbn; [|done].
  by destruct (in_range lo hi price).
Qed.

(** X5. Only the digit characters of a price count: two products whose
    non-empty price strings hold the same digits in the same order are
    kept or dropped together, whatever else the strings contain. *)
Theorem price_decided_by_digits (products : list Product)
    (budget_range : pystr) (p1 p2 : Product) (s1 s2 : pystr) :
  Forall (λ p, price_readable p) products →
  p1 ∈ products → p2 ∈ products →
  p1 !! py "price" = Some (VStr s1) → p2 !! py "price" = Some (VStr s2) →
  s1 ≠ [] → s2 ≠ [] →
  filter (λ c, str_isdigit c) s1 = filter (λ c, str_isdigit c) s2 →
  ∃ filtered, filter_by_budget products budget_range = Ok filtered
              ∧ (p1 ∈ filtered ↔ p2 ∈ filtered).
Proof.
  intros Hps Hin1 Hin2 Hp1 Hp2 Hs1 Hs2 Hd.
  destruct (budget_ranges !! budget_range) as [[lo hi]|] eqn:Hb.
  - rewrite (filter_by_budget_readable _ lo hi) by done.
    eexists; split; [done|]. rewrite !list_elem_of_filter.
    rewrite (budget_keeps_by_digits lo hi p1 p2 s1 s2 Hp1 Hp2 Hs1 Hs2 Hd).
    tauto.
  - rewrite filter_by_budget_passthrough by done. eexists; split; [done|].
    tauto.
Qed.

Lemma decimal_from_nonneg s acc :
  0 ≤ acc → Forall (λ c, is_ascii_digit c) s →
  0 ≤ foldl (λ acc c, 10 * acc + (Z.of_N c - 48)) acc s.
Proof.
  intros Hacc Hs. revert acc Hacc.
  induction Hs as [|c s Hc _ IH]; intros acc Hacc; [exact Hacc|].
  cbn [foldl]. apply IH.
  unfold is_ascii_digit in Hc. apply andb_True in Hc as [Hc _].
  apply Is_true_true, N.leb_le in Hc. lia.
Qed.

Lemma decimal_nonneg s : Forall (λ c, is_ascii_digit c) s → 0 ≤ decimal s.
Proof. by apply decimal_from_nonneg. Qed.

Lemma spec_parse_price_nonneg s x :
  spec_parse_price s = Some x → (0 <= x)%Q.
Proof.
  unfold spec_parse_price. set (digits := filter _ _).
  assert (0 ≤ decimal digits) as Hd.
  { apply decimal_nonneg, Forall_forall. by intros c [? _]%list_elem_of_filter. }
  case_bool_decide; [done|].
  destruct (2 <? length digits)%nat; intros [= <-];
    unfold Qle; cbn; lia.
Qed.

Lemma filter_singleton_kept (b : pystr) (lo : Q) (hi : option Q) (p : Product) :
  budget_ranges !! b = Some (lo, hi) →
  price_readable p → budget_keeps lo hi p = true →
  filter_by_budget [p] b = Ok [p].
Proof.
  intros Hb Hp Hk.
  rewrite (filter_by_budget_readable _ lo hi) by (by repeat constructor).
  by rewrite filter_cons, Hk.
Qed.

Lemma in_range_true lo hi x :
  (lo <= x)%Q → match hi with Some m => (x <= m)%Q | None => True end →
  in_range lo hi x = true.
Proof.
  intros Hlo Hhi. unfold in_range. apply andb_true_iff. split.
  - by apply Qle_bool_iff.
  - destruct hi; [by apply Qle_bool_iff|done].
Qed.

Local Ltac in_labels :=
  unfold bracket_labels; rewrite !elem_of_cons; tauto.

(** X6. The five brackets leave no priced product out: a product whose
    price is a non-empty string with ASCII digits is kept by at least one
    of the five labels. *)
Theorem some_bracket_keeps (p : Product) (s : pystr) :
  p !! py "price" = Some (VStr s) → s ≠ [] →
  Forall (λ c, str_isdigit c → is_ascii_digit c) s →
  ∃ budget_range, budget_range ∈ bracket_labels
                  ∧ filter_by_budget [p] budget_range = Ok [p].
Proof.
  intros Hp Hs Hascii.
  assert (price_readable p) as Hr by (unfold price_readable; by rewrite Hp).
  assert (∀ b lo hi, budget_ranges !! b = Some (lo, hi) →
            b ∈ bracket_labels →
            (∀ x, parsed_price p = Some x →
                  (lo <= x)%Q
                  ∧ match hi with Some m => (x <= m)%Q | None => True end) →
            ∃ budget_range, budget_range ∈ bracket_labels
                            ∧ filter_by_budget [p] budget_range = Ok [p])
    as Hpick.
  { intros b lo hi Hb Hin Hx. exists b. split; [done|].
    apply (filter_singleton_kept b lo hi); [done|done|].
    destruct (parsed_price p) as [x|] eqn:Hparsed.
    - rewrite (budget_keeps_parsed lo hi p x) by done.
      destruct (Hx x eq_refl). by apply in_range_true.
    - rewrite (parsed_price_ascii p s) in Hparsed by done.
      apply (budget_keeps_nodigit lo hi p s); [done|done|].
      rewrite price_num_ascii by done. f_equal.
      unfold spec_parse_price in Hparsed.
      case_bool_decide; [done|]. by destruct (2 <? _)%nat. }
  destruct (parsed_price p) as [x|] eqn:Hparsed.
  2: { apply (Hpick (py "Over $1000") 1000%Q None); [done|in_labels|done]. }
  assert (0 <= x)%Q as Hx0.
  { rewrite (parsed_price_ascii p s) in Hparsed by done.
    by eapply spec_parse_price_nonneg. }
  destruct (Qlt_le_dec 100 x) as [H100|H100].
  2: { apply (Hpick (py "Under $100") 0%Q (Some 100%Q)); [done|in_labels|].
       by intros ? [= <-]. }
  destruct (Qlt_le_dec 300 x) as [H300|H300].
  2: { apply (Hpick (py "$100 - $300") 100%Q (Some 300%Q)); [done|in_labels|].
       intros ? [= <-]. split; [by apply Qlt_le_weak|done]. }
  destruct (Qlt_le_dec 500 x) as [H500|H500].
  2: { apply (Hpick (py "$300 - $500") 300%Q (Some 500%Q)); [done|in_labels|].
       intros ? [= <-]. split; [by apply Qlt_le_weak|done]. }
  destruct (Qlt_le_dec 1000 x) as [H1000|H1000].
  2: { apply (Hpick (py "$500 - $1000") 500%Q (Some 1000%Q)); [done|in_labels|].
       intros ? [= <-]. split; [by apply Qlt_le_weak|done]. }
  apply (Hpick (py "Over $1000") 1000%Q None); [done|in_labels|].
  intros ? [= <-]. split; [by apply Qlt_le_weak|done].
Qed.

End more_parsing.

(** ** Further properties of the clients *)

Section more_clients.
Context (world : Upstream).

(** X7. When no call fails, the search client returns the [shopping] member
    of the reply as it is, and the empty list when the reply has no such
    member; its only event is the one post, carrying its two arguments. *)
Theorem search_client_returns_shopping (query : pystr) (num_results : Z)
    (response : Response) (shopping : option (list Product)) :
  requests_post world query num_results = Ok response →
  raise_for_status response = Ok () →
  json response = Ok (JObject shopping) →
  search_products_serper world query num_results
  = ([SerperPost query num_results],
     Ok match shopping with Some products => products | None => [] end).
Proof.
  intros Hpost Hstatus Hjson. unfold search_products_serper.
  rewrite Hpost. cbn -[py]. rewrite Hstatus. cbn -[py]. rewrite Hjson.
  by destruct shopping.
Qed.

(** X8. When a call fails, the search client posts once, prints one line
    made of "Error fetching products: " and the text of the exception of
    the first failing call, and returns the empty list. A reply that
    decodes to something other than an object fails on [get]. *)
Theorem search_client_reports_failure (query : pystr) (num_results : Z) :
  (∀ e, requests_post world query num_results = Raise e →
        search_products_serper world query num_results
        = ([SerperPost query num_results;
            ConsolePrint (py "Error fetching products: " ++ exn_str e)],
           Ok []))
  ∧ (∀ response e,
       requests_post world query num_results = Ok response →
       raise_for_status response = Raise e →
       search_products_serper world query num_results
       = ([SerperPost query num_results;
           ConsolePrint (py "Error fetching products: " ++ exn_str e)],
          Ok []))
  ∧ (∀ response e,
       requests_post world query num_results = Ok response →
       raise_for_status response = Ok () →
       json response = Raise e →
       search_products_serper world query num_results
       = ([SerperPost query num_results;
           ConsolePrint (py "Error fetching products: " ++ exn_str e)],
          Ok []))
  ∧ (∀ response v,
       requests_post world query num_results = Ok response →
       raise_for_status response = Ok () →
       json response = Ok (JOther v) →
       search_products_serper world query num_results
       = ([SerperPost query num_results;
           ConsolePrint (py "Error fetching products: "
                         ++ exn_str (attribute_error v "get"))],
          Ok [])).
Proof.
  unfold search_products_serper. repeat split.
  - by intros e ->.
  - intros response e Hpost Hstatus. rewrite Hpost. cbn -[py].
    by rewrite Hstatus.
  - intros response e Hpost Hstatus Hjson. rewrite Hpost. cbn -[py].
    rewrite Hstatus. cbn -[py]. by rewrite Hjson.
  - intros response v Hpost Hstatus Hjson. rewrite Hpost. cbn -[py].
    rewrite Hstatus. cbn -[py]. by rewrite Hjson.
Qed.

(** X9. The generator is called exactly once, with the first ten products
    of the list it is given: at most ten, and all of them when there are no
    more than ten. What it returns is returned as it is. *)
Theorem generator_gets_first_ten (products : list Product)
    (user_preferences budget_range category : pystr) :
  ∃ prompt text,
    get_ai_recommendations world products user_preferences budget_range
                           category
    = ([GeminiGenerate prompt], Ok text)
    ∧ prompt_products prompt = take 10 products
    ∧ (length (prompt_products prompt) ≤ 10)%nat
    ∧ prompt_products prompt `prefix_of` products
    ∧ ((length products ≤ 10)%nat → prompt_products prompt = products)
    ∧ (∀ reply, generate_content world prompt = Ok reply → text = reply).
Proof.
  rewrite get_ai_recommendations_cases. do 2 eexists. split; [done|].
  cbn [prompt_of prompt_products]. repeat split.
  - rewrite length_take. lia.
  - apply prefix_take.
  - apply take_ge.
  - by intros reply ->.
Qed.

End more_clients.

(** ** Further properties of the handler *)

Section more_handler.
Context `{!PyBuiltins} (world : Upstream).

Lemma drop_while_head {A} (f : A → bool) l x l' :
  drop_while f l = x :: l' → f x = false.
Proof.
  induction l as [|y l IH]; [done|]. cbn.
  destruct (f y) eqn:Hy; [done|]. by intros [= <- _].
Qed.

Lemma drop_while_nil {A} (f : A → bool) l :
  drop_while f l = [] ↔ Forall (λ x, f x) l.
Proof.
  induction l as [|y l IH]; cbn.
  - split; [constructor|done].
  - destruct (f y) eqn:Hy.
    + rewrite IH. split; [intros; constructor; by rewrite ?Hy|].
      by inversion 1.
    + split; [done|]. intros [Hf _]%Forall_cons. by rewrite Hy in Hf.
Qed.

Lemma str_strip_blank s : str_strip s = [] ↔ Forall (λ c, str_isspace c) s.
Proof.
  unfold str_strip. rewrite <-drop_while_nil.
  split.
  - intros Hs. apply (f_equal reverse) in Hs.
    rewrite reverse_involutive, reverse_nil in Hs.
    apply drop_while_nil in Hs. rewrite Forall_reverse in Hs.
    destruct (drop_while str_isspace s) as [|c s'] eqn:Hd; [done|].
    apply drop_while_head in Hd. apply Forall_cons in Hs as [Hc _].
    by rewrite Hd in Hc.
  - by intros ->.
Qed.

(** The five ways a request can go. *)
Lemma search_cases (data : SearchRequest) :
  (str_strip (default [] (req_query data)) = []
   ∧ search world data
     = ([], Ok (ErrorBody (py "Please enter a search query"), 400)))
  ∨ (str_strip (default [] (req_query data)) ≠ []
     ∧ ∃ trace products,
         search_products_serper world (sent_query data) (sent_count data)
         = (trace, Ok products)
         ∧ ((products = []
             ∧ search world data
               = (trace,
                  Ok (ErrorBody
                        (py "No products found. Try adjusting your search query."),
                      404)))
            ∨ (products ≠ []
               ∧ ((∃ e, filter_by_budget products (sent_budget data) = Raise e
                        ∧ search world data = (trace, Raise e))
                  ∨ ∃ filtered,
                      filter_by_budget products (sent_budget data)
                      = Ok filtered
                      ∧ ((∃ e, average_rating filtered = Raise e
                               ∧ search world data
                                 = (trace ++ [GeminiGenerate
                                                (sent_prompt data filtered)],
                                    Raise e))
                         ∨ ∃ avg,
                             average_rating filtered = Ok avg
                             ∧ search world data
                               = (trace ++ [GeminiGenerate
                                              (sent_prompt data filtered)],
                                  Ok (SuccessBody {|
                                        resp_success := true;
                                        resp_products_found := length products;
                                        resp_products_after_filter :=
                                          length filtered;
                                        resp_avg_rating := round1 avg;
                                        resp_budget_range := sent_budget data;
                                        resp_ai_recommendations :=
                                          recommendation_text world
                                            (sent_prompt data filtered);
                                        resp_products := filtered |},
                                      200))))))).
Proof.
  unfold search. case_bool_decide as Hq; [by left|]. right. split; [done|].
  fold (sent_query data) (sent_count data) (sent_budget data)
       (sent_category data) (sent_preferences data).
  destruct (search_products_serper world _ _) as [trace [products|e]] eqn:Hs.
  2: { destruct (search_products_serper_cases world (sent_query data)
                   (sent_count data)) as [(_ & ? & Hs')|(_ & ? & Hs')];
         by rewrite Hs' in Hs. }
  exists trace, products. split; [done|].
  cbn [mbind io_bind]. case_bool_decide as Hp.
  { left. split; [done|]. cbn [mret io_ret].
    by rewrite (app_nil_r trace). }
  right. split; [done|].
  destruct (filter_by_budget products _) as [filtered|e] eqn:Hf.
  2: { left. exists e. split; [done|]. cbn [lift mbind io_bind].
       by rewrite app_nil_r. }
  right. exists filtered. split; [done|].
  cbn [lift mbind io_bind]. rewrite get_ai_recommendations_cases.
  fold (sent_prompt data filtered).
  fold (recommendation_text world (sent_prompt data filtered)).
  destruct (average_rating filtered) as [avg|e] eqn:Ha.
  - right. exists avg. split; [done|]. cbn [mbind io_bind mret io_ret].
    by rewrite ?app_nil_r, ?app_nil_l.
  - left. exists e. split; [done|]. cbn [mbind io_bind].
    by rewrite ?app_nil_r, ?app_nil_l.
Qed.

Local Ltac request_cases data :=
  let Hq := fresh "Hq" in let Hs := fresh "Hs" in let Hc := fresh "Hc" in
  let Hp := fresh "Hp" in let Hf := fresh "Hf" in let Ha := fresh "Ha" in
  let trace := fresh "trace" in let products := fresh "products" in
  let filtered := fresh "filtered" in let avg := fresh "avg" in
  let e := fresh "e" in
  destruct (search_cases data)
    as [[Hq Hs]
       |(Hq & trace & products & Hc
         & [[Hp Hs]
           |(Hp & [(e & Hf & Hs)
                  |(filtered & Hf & [(e & Ha & Hs)|(avg & Ha & Hs)])])])].

Lemma filter_by_budget_ok_sublist (products filtered : list Product) b :
  filter_by_budget products b = Ok filtered → filtered `sublist_of` products.
Proof.
  destruct (budget_ranges !! b) as [[lo hi]|] eqn:Hb.
  - destruct (decide (Forall (λ p, price_readable p) products)) as [Hps|Hps].
    + rewrite (filter_by_budget_readable _ lo hi) by done.
      intros [= <-]. apply sublist_filter.
    + destruct (filter_by_budget_unreadable b lo hi products Hb Hps) as [e ->].
      done.
  - rewrite filter_by_budget_passthrough by done. by intros [= <-].
Qed.

(** X10. The handler answers 400 exactly when the query is absent or made
    of white space only; a query with one other character never gets 400. *)
Theorem bad_request_iff_blank (data : SearchRequest) :
  (∃ trace body, search world data = (trace, Ok (body, 400)))
  ↔ Forall (λ c, str_isspace c) (default [] (req_query data)).
Proof.
  rewrite <-str_strip_blank. split.
  - intros (trace' & body & Hr). request_cases data; [done|..];
      rewrite Hs in Hr; by simplify_eq.
  - intros Hq. request_cases data; [by eauto|done..].
Qed.

(** X11. For a query that is not blank, the handler answers 404 exactly
    when the search client returns the empty list. *)
Theorem not_found_iff_no_products (data : SearchRequest) :
  str_strip (default [] (req_query data)) ≠ [] →
  (∃ trace body, search world data = (trace, Ok (body, 404)))
  ↔ ∃ trace, search_products_serper world (sent_query data) (sent_count data)
             = (trace, Ok []).
Proof.
  intros Hq. split.
  - intros (trace' & body & Hr). request_cases data; [done|..];
      rewrite Hs in Hr; simplify_eq; by eauto.
  - intros (trace' & Hr). request_cases data; [done|..];
      rewrite Hc in Hr; simplify_eq; by eauto.
Qed.

(** X12. A successful reply has status 200 and consistent counts: the
    products it lists are a sublist of the products found, their number is
    [products_after_filter], it is at most [products_found], which is the
    number of products the search client returned and is not zero; the
    budget label is echoed. *)
Theorem reply_statistics (data : SearchRequest) (trace : list event)
    (r : SearchResponse) (status : Z) :
  search world data = (trace, Ok (SuccessBody r, status)) →
  status = 200
  ∧ resp_success r = true
  ∧ resp_budget_range r = sent_budget data
  ∧ resp_products_after_filter r = length (resp_products r)
  ∧ (resp_products_after_filter r ≤ resp_products_found r)%nat
  ∧ (0 < resp_products_found r)%nat
  ∧ ∃ trace' products,
      search_products_serper world (sent_query data) (sent_count data)
      = (trace', Ok products)
      ∧ resp_products_found r = length products
      ∧ resp_products r `sublist_of` products.
Proof.
  intros Hr. request_cases data; rewrite Hs in Hr; simplify_eq.
  apply filter_by_budget_ok_sublist in Hf as Hsub. cbn.
  repeat split; [by apply sublist_length| |by eauto].
  destruct products; [done|cbn; lia].
Qed.

(** X13. Whatever the request and the upstream, the handler posts at most
    once to the shopping endpoint and calls the generator at most once,
    and only after the post: its events are none, the post alone, the post
    and the line printed on a failure, or the post and the generation. *)
Theorem call_discipline (data : SearchRequest) :
  (search world data).1 = []
  ∨ (search world data).1 = [SerperPost (sent_query data) (sent_count data)]
  ∨ (∃ line, (search world data).1
             = [SerperPost (sent_query data) (sent_count data);
                ConsolePrint line])
  ∨ (∃ prompt, (search world data).1
               = [SerperPost (sent_query data) (sent_count data);
                  GeminiGenerate prompt]).
Proof.
  request_cases data; rewrite Hs; cbn [fst]; [by left|..];
    destruct (search_products_serper_cases world (sent_query data)
                (sent_count data)) as [(_ & line & Hc')|(_ & found & Hc')];
    rewrite Hc' in Hc; simplify_eq; cbn [app]; by eauto 6.
Qed.

(** X14. When the search client returns products and the budget filter
    drops them all, the handler still calls the generator, with no
    product, and answers 200 with an empty product list, zero products
    after the filter and the rounded average of zero. *)
Theorem empty_filter_still_generates (data : SearchRequest)
    (trace : list event) (products : list Product) :
  str_strip (default [] (req_query data)) ≠ [] →
  search_products_serper world (sent_query data) (sent_count data)
  = (trace, Ok products) →
  products ≠ [] →
  filter_by_budget products (sent_budget data) = Ok [] →
  ∃ r, search world data
       = (trace ++ [GeminiGenerate (sent_prompt data [])],
          Ok (SuccessBody r, 200))
       ∧ prompt_products (sent_prompt data []) = []
       ∧ resp_products r = []
       ∧ resp_products_after_filter r = 0%nat
       ∧ resp_products_found r = length products
       ∧ resp_avg_rating r = round1 0.
Proof.
  intros Hblank Hcli Hne Hfil. request_cases data; try done;
    rewrite Hcli in Hc; simplify_eq; try congruence.
  all: rewrite Hfil in Hf; simplify_eq.
  change (Ok 0%Q = Ok avg) in Ha. simplify_eq.
  eexists. split; [exact Hs|]. by repeat split.
Qed.

(** X17. The query that is posted holds the query of the request as it
    was received, surrounding white space included: nothing stands before
    it when the category is absent or "Other", nothing behind it when no
    brand is given, and it is never empty. *)
Theorem posted_query (data : SearchRequest) (q : pystr) (num : Z) :
  SerperPost q num ∈ (search world data).1 →
  q = sent_query data ∧ num = sent_count data ∧ q ≠ []
  ∧ ∃ before behind,
      q = before ++ default [] (req_query data) ++ behind
      ∧ (sent_category data = py "Other" → before = [])
      ∧ (default [] (req_brand_preference data) = [] → behind = []).
Proof.
  intros Hin.
  assert (q = sent_query data ∧ num = sent_count data
          ∧ str_strip (default [] (req_query data)) ≠ []) as (-> & -> & Hq).
  { request_cases data; rewrite Hs in Hin; cbn [fst] in Hin;
      [by apply elem_of_nil in Hin|..];
      (split; [|split; [|done]]);
      destruct (search_products_serper_cases world (sent_query data)
                  (sent_count data)) as [(_ & line & Hc')|(_ & found & Hc')];
      rewrite Hc' in Hc; simplify_eq; cbn [app] in Hin;
      rewrite ?elem_of_cons, elem_of_nil in Hin;
      by intuition simplify_eq. }
  assert (default [] (req_query data) ≠ []) as Hne.
  { intros Heq. by rewrite Heq in Hq. }
  split; [done|]. split; [done|].
  unfold sent_query, enhanced_query_of, sent_category.
  split.
  { repeat case_bool_decide;
      by destruct (default [] (req_query data)),
                  (default (py "Other") (req_category data)). }
  exists (if bool_decide (default (py "Other") (req_category data) ≠ py "Other")
          then default (py "Other") (req_category data) ++ py " " else []),
         (if bool_decide (default [] (req_brand_preference data) ≠ [])
          then py " " ++ default [] (req_brand_preference data) else []).
  repeat case_bool_decide;
    (split; [by rewrite ?app_nil_r, <-?app_assoc|by split]).
Qed.

End more_handler.

(** ** Further properties of the statistics step *)

Section more_statistics.
Context `{!PyBuiltins}.

Lemma rated_rated l : rated (rated l) = rated l.
Proof. unfold rated. by apply list_filter_filter_l. Qed.

Lemma rated_member (p : Product) :
  truthy (dict_get p (py "rating") VNone) →
  dict_get p (py "rating") VNone = rating_member p.
Proof.
  unfold rating_member, dict_get. by destruct (p !! py "rating").
Qed.

Lemma average_rating_rated l :
  average_rating l
  = ratings ← mapM (λ p, py_float (rating_member p)) (rated l);
    if bool_decide (ratings ≠ [])
    then Ok (py_sum ratings / inject_Z (Z.of_nat (length ratings)))%Q
    else Ok 0%Q.
Proof.
  unfold average_rating. fold (rated l). case_bool_decide as Hl; [done|].
  by subst.
Qed.

(** X19. Products without a truthy rating have no part in the average:
    the statistics step gives the same outcome on a product list and on
    the rated products of that list alone. *)
Theorem average_rating_ignores_unrated (filtered_products : list Product) :
  average_rating filtered_products
  = average_rating (rated filtered_products).
Proof. by rewrite !average_rating_rated, rated_rated. Qed.

Lemma mapM_raise {A B} (f : A → result B) l e :
  mapM f l = Raise e → ∃ x, x ∈ l ∧ f x = Raise e.
Proof.
  induction l as [|x l IH]; [done|]. cbn [mapM].
  destruct (f x) as [y|e'] eqn:Hx.
  - rewrite bind_Ok. destruct (mapM f l) as [ys|e'']; [done|].
    intros [= ->]. destruct (IH eq_refl) as (x' & Hin & Hx').
    exists x'. split; [by right|done].
  - intros [= ->]. exists x. split; [by left|done].
Qed.

Lemma mapM_ok {A B} (f : A → result B) l :
  Forall (λ x, ∃ y, f x = Ok y) l → ∃ ys, mapM f l = Ok ys.
Proof.
  induction 1 as [|x l [y Hx] _ [ys IH]]; [by eexists|].
  cbn [mapM]. rewrite Hx, bind_Ok, IH. by eexists.
Qed.

(** X20. The statistics step raises exactly when [float] raises on the
    rating of some rated product, and the exception is one that [float]
    raised on such a rating. *)
Theorem average_rating_raises (filtered_products : list Product) :
  ((∃ e, average_rating filtered_products = Raise e)
   ↔ ∃ p e, p ∈ rated filtered_products
            ∧ py_float (rating_member p) = Raise e)
  ∧ ∀ e, average_rating filtered_products = Raise e →
         ∃ p, p ∈ rated filtered_products
              ∧ py_float (rating_member p) = Raise e.
Proof.
  assert (∀ e, average_rating filtered_products = Raise e →
               ∃ p, p ∈ rated filtered_products
                    ∧ py_float (rating_member p) = Raise e) as Hraise.
  { intros e. rewrite average_rating_rated.
    destruct (mapM _ (rated filtered_products)) as [ratings|e'] eqn:Hm.
    - rewrite bind_Ok. by case_bool_decide.
    - intros [= ->]. by apply mapM_raise in Hm. }
  split; [split|done].
  - intros [e (p & Hp)%Hraise]. by exists p, e.
  - intros (p & e & Hin & Hp). rewrite average_rating_rated.
    destruct (mapM _ (rated filtered_products)) as [ratings|e'] eqn:Hm;
      [|by eexists].
    exfalso. clear -Hin Hp Hm. revert ratings Hm.
    induction (rated filtered_products) as [|q l IH]; intros ratings;
      [by apply elem_of_nil in Hin|].
    cbn [mapM]. apply elem_of_cons in Hin as [<-|Hin].
    + by rewrite Hp.
    + destruct (py_float (rating_member q)); [|done]. rewrite bind_Ok.
      destruct (mapM _ l) as [ys|] eqn:Hl; [|done]. intros _.
      by apply (IH Hin ys).
Qed.

(** X21. Ratings that are absent, null or numbers within the range of a
    double never make the statistics step raise. *)
Theorem plain_ratings_average (filtered_products : list Product) :
  Forall plain_rating filtered_products →
  ∃ avg, average_rating filtered_products = Ok avg.
Proof.
  intros Hplain. rewrite average_rating_rated.
  destruct (mapM_ok (λ p, py_float (rating_member p))
              (rated filtered_products)) as [ratings ->].
  - apply Forall_forall. intros p [Ht Hin]%list_elem_of_filter.
    apply (proj1 (Forall_forall _ _) Hplain) in Hin.
    unfold plain_rating in Hin. rewrite <-rated_member by done.
    destruct (dict_get p (py "rating") VNone); try done; cbn [py_float];
      try by eexists.
    apply Z.ltb_lt in Hin. rewrite Hin. by eexists.
  - rewrite bind_Ok. case_bool_decide; by eexists.
Qed.

End more_statistics.

(** ** The further properties at concrete inputs *)

Local Ltac readable := repeat (constructor; try exact I).
Local Ltac member := rewrite !elem_of_cons; tauto.

Lemma filter_by_budget_raises_witness :
  is_Some (budget_ranges !! py "Under $100") ∧
  @filter_by_budget numeral_runtime [mug; crate; lamp] (py "Under $100")
  = Raise (attribute_error (VInt 45) "replace") ∧
  (((∃ e, @filter_by_budget numeral_runtime [mug; crate; lamp]
                            (py "Under $100")
          = Raise e) ↔
    ∃ p v, p ∈ [mug; crate; lamp] ∧ p !! py "price" = Some v ∧ truthy v
           ∧ ∀ s, v ≠ VStr s)
   ∧ ∀ e, @filter_by_budget numeral_runtime [mug; crate; lamp]
                            (py "Under $100")
          = Raise e →
          ∃ before p after v,
            [mug; crate; lamp] = before ++ p :: after
            ∧ Forall (λ q, price_readable q) before
            ∧ p !! py "price" = Some v ∧ truthy v ∧ (∀ s, v ≠ VStr s)
            ∧ e = attribute_error v "replace").
Proof.
  split; [by eexists|]. split; [done|].
  apply (@filter_by_budget_raises numeral_runtime). by eexists.
Defined.

Lemma unlisted_label_passthrough_witness :
  (py "under $100" ∉ bracket_labels) ∧
  @filter_by_budget numeral_runtime [mug; crate] (py "under $100")
  = Ok [mug; crate].
Proof.
  assert (py "under $100" ∉ bracket_labels) as Hb.
  { intros Hin. unfold bracket_labels in Hin.
    repeat (apply elem_of_cons in Hin as [Hin|Hin]; [discriminate|]).
    by apply elem_of_nil in Hin. }
  split; [done|]. by apply (@unlisted_label_passthrough numeral_runtime).
Defined.

Lemma filter_by_budget_app_witness :
  Forall (λ p, price_readable p) [mug; lamp] ∧
  Forall (λ p, price_readable p) [desk; sample] ∧
  ∃ filtered1 filtered2,
    @filter_by_budget numeral_runtime [mug; lamp] (py "$100 - $300")
    = Ok filtered1
    ∧ @filter_by_budget numeral_runtime [desk; sample] (py "$100 - $300")
      = Ok filtered2
    ∧ @filter_by_budget numeral_runtime ([mug; lamp] ++ [desk; sample])
                        (py "$100 - $300")
      = Ok (filtered1 ++ filtered2).
Proof.
  split; [readable|]. split; [readable|].
  apply (@filter_by_budget_app numeral_runtime); readable.
Defined.

Lemma unconvertible_price_kept_witness :
  is_Some (budget_ranges !! py "Over $1000") ∧
  Forall (λ p, price_readable p) [mug; ruler] ∧
  ruler ∈ [mug; ruler] ∧
  ruler !! py "price" = Some (VStr [178%N]) ∧
  @price_num_of numeral_runtime (VStr [178%N]) = Ok [178%N] ∧
  @float_of_str numeral_runtime [178%N] = Raise (float_value_error [178%N]) ∧
  ∃ filtered,
    @filter_by_budget numeral_runtime [mug; ruler] (py "Over $1000")
    = Ok filtered
    ∧ ruler ∈ filtered.
Proof.
  split; [by eexists|]. split; [readable|]. split; [member|].
  split; [done|]. split; [done|]. split; [done|].
  apply (@unconvertible_price_kept numeral_runtime _ _ _ [178%N] [178%N]
           (float_value_error [178%N]));
    [by eexists | readable | member | done | done | done | done].
Defined.

Lemma price_decided_by_digits_witness :
  Forall (λ p, price_readable p) [mug; bundle; lamp] ∧
  mug !! py "price" = Some (VStr (py "$45.00")) ∧
  bundle !! py "price" = Some (VStr (py "USD 4,500")) ∧
  filter (λ c, @str_isdigit numeral_runtime c) (py "$45.00")
  = filter (λ c, @str_isdigit numeral_runtime c) (py "USD 4,500") ∧
  ∃ filtered,
    @filter_by_budget numeral_runtime [mug; bundle; lamp] (py "Under $100")
    = Ok filtered
    ∧ (mug ∈ filtered ↔ bundle ∈ filtered).
Proof.
  split; [readable|]. split; [done|]. split; [done|]. split; [done|].
  apply (@price_decided_by_digits numeral_runtime numeral_runtime_spec
           _ _ mug bundle (py "$45.00") (py "USD 4,500"));
    [readable | member | member | done | done | done | done | done].
Defined.

Lemma laptop_price_ascii :
  Forall (λ c, @str_isdigit numeral_runtime c → is_ascii_digit c)
         (py "$1,299.99").
Proof.
  apply (@ascii_only_digits numeral_runtime numeral_runtime_spec).
  apply Forall_forall. intros c Hc.
  repeat (apply elem_of_cons in Hc as [->|Hc]; [done|]).
  by apply elem_of_nil in Hc.
Qed.

Lemma some_bracket_keeps_witness :
  laptop !! py "price" = Some (VStr (py "$1,299.99")) ∧
  Forall (λ c, @str_isdigit numeral_runtime c → is_ascii_digit c)
         (py "$1,299.99") ∧
  ∃ budget_range,
    budget_range ∈ bracket_labels
    ∧ @filter_by_budget numeral_runtime [laptop] budget_range = Ok [laptop].
Proof.
  split; [done|]. split; [exact laptop_price_ascii|].
  apply (@some_bracket_keeps numeral_runtime numeral_runtime_spec laptop
           (py "$1,299.99")); [done | done | exact laptop_price_ascii].
Defined.

Lemma search_client_returns_shopping_witness :
  search_products_serper (shop_world [mug; lamp] []) (py "mug") 5
  = ([SerperPost (py "mug") 5], Ok [mug; lamp]) ∧
  search_products_serper bare_world (py "mug") 5
  = ([SerperPost (py "mug") 5], Ok []).
Proof.
  split.
  - by apply (search_client_returns_shopping (shop_world [mug; lamp] [])
                (py "mug") 5
                {| raise_for_status := Ok ();
                   json := Ok (JObject (Some [mug; lamp])) |}
                (Some [mug; lamp])).
  - by apply (search_client_returns_shopping bare_world (py "mug") 5
                {| raise_for_status := Ok (); json := Ok (JObject None) |}
                None).
Defined.

Lemma plain_ratings_average_witness :
  Forall plain_rating [mug; lamp; desk; bundle] ∧
  ∃ avg, @average_rating numeral_runtime [mug; lamp; desk; bundle] = Ok avg.
Proof.
  assert (Forall plain_rating [mug; lamp; desk; bundle]) as Hplain.
  { repeat constructor; by vm_compute. }
  split; [done|]. by apply (@plain_ratings_average numeral_runtime).
Defined.

Lemma not_found_iff_no_products_witness :
  @str_strip numeral_runtime (default [] (req_query kettle_request)) ≠ [] ∧
  ((∃ trace body,
      @search numeral_runtime bare_world kettle_request
      = (trace, Ok (body, 404)))
   ↔ ∃ trace,
       search_products_serper bare_world (sent_query kettle_request)
                              (sent_count kettle_request)
       = (trace, Ok [])).
Proof.
  split; [done|]. by apply (@not_found_iff_no_products numeral_runtime).
Defined.

Lemma reply_statistics_witness :
  ∃ trace r,
    @search numeral_runtime (shop_world [mug; lamp; desk] (py "<p>Mug</p>"))
            kettle_request
    = (trace, Ok (SuccessBody r, 200))
    ∧ resp_products r = [mug]
    ∧ resp_products_found r = 3%nat
    ∧ resp_success r = true
    ∧ resp_budget_range r = sent_budget kettle_request
    ∧ resp_products_after_filter r = length (resp_products r)
    ∧ (resp_products_after_filter r ≤ resp_products_found r)%nat
    ∧ (0 < resp_products_found r)%nat.
Proof.
  do 2 eexists. split; [done|]. split; [done|]. split; [done|].
  destruct (@reply_statistics numeral_runtime
              (shop_world [mug; lamp; desk] (py "<p>Mug</p>"))
              kettle_request _ _ _ eq_refl)
    as (_ & Hsuccess & Hbudget & Hafter & Hle & Hpos & _).
  by repeat split.
Defined.

Lemma empty_filter_still_generates_witness :
  @str_strip numeral_runtime (default [] (req_query kettle_request)) ≠ [] ∧
  search_products_serper (shop_world [lamp] (py "<p>none</p>"))
                         (sent_query kettle_request)
                         (sent_count kettle_request)
  = ([SerperPost (py "Kitchen kettle") 10], Ok [lamp]) ∧
  @filter_by_budget numeral_runtime [lamp] (sent_budget kettle_request)
  = Ok [] ∧
  ∃ r, @search numeral_runtime (shop_world [lamp] (py "<p>none</p>"))
               kettle_request
       = ([SerperPost (py "Kitchen kettle") 10]
          ++ [GeminiGenerate (sent_prompt kettle_request [])],
          Ok (SuccessBody r, 200))
       ∧ prompt_products (sent_prompt kettle_request []) = []
       ∧ resp_products r = []
       ∧ resp_products_after_filter r = 0%nat
       ∧ resp_products_found r = length [lamp]
       ∧ resp_avg_rating r = tenths 0.
Proof.
  split; [done|]. split; [done|]. split; [done|].
  by apply (@empty_filter_still_generates numeral_runtime
              (shop_world [lamp] (py "<p>none</p>")) kettle_request
              [SerperPost (py "Kitchen kettle") 10] [lamp]).
Defined.

Lemma posted_query_witness :
  SerperPost (py " desk  Acme") 3
  ∈ (@search numeral_runtime (shop_world [laptop] (py "<p>Laptop</p>"))
             plain_request).1 ∧
  py " desk  Acme" = sent_query plain_request ∧
  3 = sent_count plain_request ∧
  ∃ before behind,
    py " desk  Acme"
    = before ++ default [] (req_query plain_request) ++ behind
    ∧ (sent_category plain_request = py "Other" → before = [])
    ∧ (default [] (req_brand_preference plain_request) = [] → behind = []).
Proof.
  assert (SerperPost (py " desk  Acme") 3
          ∈ (@search numeral_runtime
               (shop_world [laptop] (py "<p>Laptop</p>")) plain_request).1)
    as Hin by (by left).
  split; [done|].
  destruct (@posted_query numeral_runtime
              (shop_world [laptop] (py "<p>Laptop</p>")) plain_request
              _ _ Hin) as (Hq & Hn & _ & Hshape).
  by repeat split.
Defined.

(** ** The handler on an untyped body *)

Section raw_facts.
Context `{!PyBuiltins} `{!PyText} (world : Raw.Upstream).

Lemma raw_client_cases query num_results :
  (∃ products,
     Raw.search_products_serper world query num_results
     = ([Raw.SerperPost query num_results], Ok products))
  ∨ (∃ line,
       Raw.search_products_serper world query num_results
       = ([Raw.SerperPost query num_results; Raw.ConsolePrint line], Ok [])).
Proof.
  unfold Raw.search_products_serper.
  destruct (Raw.requests_post world query num_results) as [response|e];
    cbn -[py]; [|by eauto].
  destruct (raise_for_status response) as [[]|e]; cbn -[py]; [|by eauto].
  destruct (json response) as [[shopping|v]|e]; cbn -[py]; by eauto.
Qed.

Lemma raw_generator_cases products user_preferences budget_range category :
  Raw.get_ai_recommendations world products user_preferences budget_range
                             category
  = ([Raw.GeminiGenerate
        (Raw.prompt_of products user_preferences budget_range category)],
     Ok (Raw.recommendation_text world
           (Raw.prompt_of products user_preferences budget_range category))).
Proof.
  unfold Raw.get_ai_recommendations, Raw.recommendation_text.
  by destruct (Raw.generate_content world _).
Qed.

(** The ways a request can go once its body is an object whose query is a
    string that is not blank. *)
Lemma raw_search_cases (data : gmap pystr value) (user_query : pystr) :
  Raw.member_query data = VStr user_query →
  str_strip user_query ≠ [] →
  ∃ trace products,
    Raw.search_products_serper world (Raw.sent_query data user_query)
                               (Raw.member_num_results data)
    = (trace, Ok products)
    ∧ ((products = []
        ∧ Raw.search world (VDict data)
          = (trace,
             Ok (Raw.ErrorBody
                   (py "No products found. Try adjusting your search query."),
                 404)))
       ∨ (products ≠ []
          ∧ ((∃ e, Raw.filter_by_budget products (Raw.member_budget_range data)
                   = Raise e
                   ∧ Raw.search world (VDict data) = (trace, Raise e))
             ∨ ∃ filtered,
                 Raw.filter_by_budget products (Raw.member_budget_range data)
                 = Ok filtered
                 ∧ ((∃ e, Raw.sent_preferences data user_query = Raise e
                          ∧ Raw.search world (VDict data) = (trace, Raise e))
                    ∨ ∃ preferences_text,
                        Raw.sent_preferences data user_query
                        = Ok preferences_text
                        ∧ ((∃ e, average_rating filtered = Raise e
                                 ∧ Raw.search world (VDict data)
                                   = (trace
                                      ++ [Raw.GeminiGenerate
                                            (Raw.sent_prompt data filtered
                                               preferences_text)],
                                      Raise e))
                           ∨ ∃ avg,
                               average_rating filtered = Ok avg
                               ∧ Raw.search world (VDict data)
                                 = (trace
                                    ++ [Raw.GeminiGenerate
                                          (Raw.sent_prompt data filtered
                                             preferences_text)],
                                    Ok (Raw.SuccessBody {|
                                          Raw.resp_success := true;
                                          Raw.resp_products_found :=
                                            length products;
                                          Raw.resp_products_after_filter :=
                                            length filtered;
                                          Raw.resp_avg_rating := round1 avg;
                                          Raw.resp_budget_range :=
                                            Raw.member_budget_range data;
                                          Raw.resp_ai_recommendations :=
                                            Raw.recommendation_text world
                                              (Raw.sent_prompt data filtered
                                                 preferences_text);
                                          Raw.resp_products := filtered |},
                                        200))))))).
Proof.
  intros Hquery Hblank. unfold Raw.search. rewrite Hquery.
  rewrite (bool_decide_eq_false_2 _ Hblank).
  fold (Raw.sent_query data user_query)
       (Raw.sent_preferences data user_query).
  destruct (raw_client_cases (Raw.sent_query data user_query)
              (Raw.member_num_results data))
    as [[products Hc]|[line Hc]]; rewrite Hc; do 2 eexists; (split; [done|]).
  2: { left. split; [done|]. cbn [mbind Raw.io_bind].
       rewrite bool_decide_eq_true_2 by done.
       by cbn [mret Raw.io_ret app]. }
  cbn [mbind Raw.io_bind]. case_bool_decide as Hp.
  { left. split; [done|]. cbn [mret Raw.io_ret]. by rewrite app_nil_r. }
  right. split; [done|].
  destruct (Raw.filter_by_budget products _) as [filtered|e] eqn:Hf.
  2: { left. exists e. split; [done|]. by cbn [Raw.lift mbind Raw.io_bind]. }
  right. exists filtered. split; [done|]. cbn [Raw.lift mbind Raw.io_bind].
  destruct (Raw.sent_preferences data user_query) as [preferences_text|e].
  2: { left. exists e. split; [done|]. by cbn [mbind Raw.io_bind]. }
  right. exists preferences_text. split; [done|]. cbn [mbind Raw.io_bind].
  rewrite raw_generator_cases. fold (Raw.sent_prompt data filtered preferences_text).
  destruct (average_rating filtered) as [avg|e] eqn:Ha.
  - right. exists avg. split; [done|].
    by cbn [mbind Raw.io_bind mret Raw.io_ret app].
  - left. exists e. split; [done|]. by cbn [mbind Raw.io_bind app].
Qed.

Lemma raw_client_never_generates query num_results trace products :
  Raw.search_products_serper world query num_results = (trace, Ok products) →
  ∀ prompt, Raw.GeminiGenerate prompt ∉ trace.
Proof.
  intros Hc prompt.
  destruct (raw_client_cases query num_results) as [[found Hc']|[line Hc']];
    rewrite Hc' in Hc; injection Hc as <- _;
    rewrite ?elem_of_cons, elem_of_nil; intuition discriminate.
Qed.

(** X15. A failure of the generator does not fail the request. When the
    body is an object, its query a string that is not blank, the search
    client returns products, the budget filter, the preference text and
    the statistics step return, and the generator raises, the handler
    answers 200 with a success whose recommendation text is "Error
    generating recommendations: " followed by the text of the exception. *)
Theorem generator_failure_in_reply (data : gmap pystr value)
    (user_query : pystr) (trace : list Raw.event)
    (products filtered : list Product) (preferences_text : pystr) (avg : Q)
    (e : exn) :
  Raw.member_query data = VStr user_query →
  str_strip user_query ≠ [] →
  Raw.search_products_serper world (Raw.sent_query data user_query)
                             (Raw.member_num_results data)
  = (trace, Ok products) →
  products ≠ [] →
  Raw.filter_by_budget products (Raw.member_budget_range data) = Ok filtered →
  Raw.sent_preferences data user_query = Ok preferences_text →
  average_rating filtered = Ok avg →
  Raw.generate_content world (Raw.sent_prompt data filtered preferences_text)
  = Raise e →
  ∃ r,
    Raw.search world (VDict data)
    = (trace ++ [Raw.GeminiGenerate
                   (Raw.sent_prompt data filtered preferences_text)],
       Ok (Raw.SuccessBody r, 200))
    ∧ Raw.resp_success r = true
    ∧ Raw.resp_products r = filtered
    ∧ Raw.resp_ai_recommendations r
      = py "Error generating recommendations: " ++ exn_str e.
Proof.
  intros Hquery Hblank Hclient Hfound Hfilter Hprefs Havg Hgen.
  destruct (raw_search_cases data user_query Hquery Hblank)
    as (trace' & products' & Hc
        & [[Hp Hs]
          |(Hp & [(e' & Hf & Hs)
                 |(filtered' & Hf
                   & [(e' & Hpr & Hs)
                     |(preferences' & Hpr
                       & [(e' & Ha & Hs)|(avg' & Ha & Hs)])])])]);
    rewrite Hclient in Hc; simplify_eq; try congruence;
    rewrite Hfilter in Hf; simplify_eq; try congruence;
    rewrite Hprefs in Hpr; simplify_eq; try congruence.
  eexists. split; [exact Hs|]. cbn. split; [done|]. split; [done|].
  unfold Raw.recommendation_text. by rewrite Hgen.
Qed.

(** X16. An exception leaves the handler at five points only. Two come
    before any call: [get] on a body that is not an object and [strip] on a
    query that is not a string. Two come after the post and before the
    generator is called: the budget filter and the joining of the feature
    priorities. The last comes after the generator has been called: the
    statistics step. *)
Theorem raise_points (body : value) (trace : list Raw.event) (e : exn) :
  Raw.search world body = (trace, Raise e) →
  ((∀ data, body ≠ VDict data)
   ∧ trace = [] ∧ e = attribute_error body "get")
  ∨ ∃ data,
      body = VDict data
      ∧ (((∀ s, Raw.member_query data ≠ VStr s)
          ∧ trace = []
          ∧ e = attribute_error (Raw.member_query data) "strip")
         ∨ ∃ user_query trace' products,
             Raw.member_query data = VStr user_query
             ∧ Raw.search_products_serper world
                 (Raw.sent_query data user_query)
                 (Raw.member_num_results data)
               = (trace', Ok products)
             ∧ (∀ prompt, Raw.GeminiGenerate prompt ∉ trace')
             ∧ ((Raw.filter_by_budget products (Raw.member_budget_range data)
                 = Raise e
                 ∧ trace = trace')
                ∨ ∃ filtered,
                    Raw.filter_by_budget products
                      (Raw.member_budget_range data)
                    = Ok filtered
                    ∧ ((Raw.sent_preferences data user_query = Raise e
                        ∧ trace = trace')
                       ∨ ∃ preferences_text,
                           Raw.sent_preferences data user_query
                           = Ok preferences_text
                           ∧ average_rating filtered = Raise e
                           ∧ trace
                             = trace'
                               ++ [Raw.GeminiGenerate
                                     (Raw.sent_prompt data filtered
                                        preferences_text)]))).
Proof.
  intros Hr.
  destruct body as [| | | | | |data];
    try (left; unfold Raw.search in Hr; injection Hr as <- <-;
         by repeat split).
  right. exists data. split; [done|].
  destruct (Raw.member_query data) as [| | | |user_query| |] eqn:Hquery;
    try (left; unfold Raw.search in Hr; rewrite Hquery in Hr;
         injection Hr as <- <-; by repeat split).
  right.
  destruct (decide (str_strip user_query = [])) as [Hblank|Hblank].
  { unfold Raw.search in Hr. rewrite Hquery in Hr.
    by rewrite (bool_decide_eq_true_2 _ Hblank) in Hr. }
  destruct (raw_search_cases data user_query Hquery Hblank)
    as (trace' & products & Hc
        & [[Hp Hs]
          |(Hp & [(e' & Hf & Hs)
                 |(filtered & Hf
                   & [(e' & Hpr & Hs)
                     |(preferences_text & Hpr
                       & [(e' & Ha & Hs)|(avg & Ha & Hs)])])])]);
    rewrite Hs in Hr; simplify_eq;
    eexists user_query, _, products; (split; [done|]); (split; [exact Hc|]);
    (split; [by eapply raw_client_never_generates|]).
  - by left.
  - right. exists filtered. split; [done|]. by left.
  - right. exists filtered. split; [done|]. right. by exists preferences_text.
Qed.

(** X18. The handler answers 200 exactly when the body is an object, its
    query is a string that is not blank, the search client returns at
    least one product, and the budget filter, the preference text and the
    statistics step all return; the outcome of the generator plays no
    part. *)
Theorem success_iff (body : value) :
  (∃ trace r, Raw.search world body = (trace, Ok (Raw.SuccessBody r, 200)))
  ↔ ∃ data user_query trace products filtered preferences_text avg,
      body = VDict data
      ∧ Raw.member_query data = VStr user_query
      ∧ str_strip user_query ≠ []
      ∧ Raw.search_products_serper world (Raw.sent_query data user_query)
                                   (Raw.member_num_results data)
        = (trace, Ok products)
      ∧ products ≠ []
      ∧ Raw.filter_by_budget products (Raw.member_budget_range data)
        = Ok filtered
      ∧ Raw.sent_preferences data user_query = Ok preferences_text
      ∧ average_rating filtered = Ok avg.
Proof.
  split.
  - intros (trace & r & Hr).
    destruct body as [| | | | | |data]; try done.
    destruct (Raw.member_query data) as [| | | |user_query| |] eqn:Hquery;
      try (unfold Raw.search in Hr; by rewrite Hquery in Hr).
    destruct (decide (str_strip user_query = [])) as [Hblank|Hblank].
    { unfold Raw.search in Hr. rewrite Hquery in Hr.
      by rewrite (bool_decide_eq_true_2 _ Hblank) in Hr. }
    destruct (raw_search_cases data user_query Hquery Hblank)
      as (trace' & products & Hc
          & [[Hp Hs]
            |(Hp & [(e' & Hf & Hs)
                   |(filtered & Hf
                     & [(e' & Hpr & Hs)
                       |(preferences_text & Hpr
                         & [(e' & Ha & Hs)|(avg & Ha & Hs)])])])]);
      rewrite Hs in Hr; simplify_eq.
    by eexists data, user_query, _, products, filtered, preferences_text,
               avg.
  - intros (data & user_query & trace & products & filtered
            & preferences_text & avg & -> & Hquery & Hblank & Hclient
            & Hfound & Hfilter & Hprefs & Havg).
    destruct (raw_search_cases data user_query Hquery Hblank)
      as (trace' & products' & Hc
          & [[Hp Hs]
            |(Hp & [(e' & Hf & Hs)
                   |(filtered' & Hf
                     & [(e' & Hpr & Hs)
                       |(preferences' & Hpr
                         & [(e' & Ha & Hs)|(avg' & Ha & Hs)])])])]);
      rewrite Hclient in Hc; simplify_eq; try congruence;
      rewrite Hfilter in Hf; simplify_eq; try congruence;
      rewrite Hprefs in Hpr; simplify_eq; try congruence.
    by eauto.
Qed.

End raw_facts.

(** *** The untyped handler at concrete bodies *)

(** A body that is not an object, a query that is null, feature priorities
    that hold a number and a budget that is a list each make the handler
    raise; the first two before any call, the last two after the post. *)
Example ill_typed_bodies_raise :
  @Raw.search numeral_runtime plain_text (raw_world [mug; desk] (Ok []))
              (VList [])
  = ([], Raise (attribute_error (VList []) "get")) ∧
  @Raw.search numeral_runtime plain_text (raw_world [mug; desk] (Ok []))
              (VDict null_query_data)
  = ([], Raise (attribute_error VNone "strip")) ∧
  @Raw.search numeral_runtime plain_text (raw_world [mug; desk] (Ok []))
              (VDict numbered_features_data)
  = ([Raw.SerperPost (py "desk") (VInt 10)],
     Raise (Exn TypeError
              (py "sequence item 1: expected str instance, int found"))) ∧
  @Raw.search numeral_runtime plain_text (raw_world [mug; desk] (Ok []))
              (VDict listed_budget_data)
  = ([Raw.SerperPost (py "desk") (VInt 10)],
     Raise (Exn TypeError (py "unhashable type: 'list'"))).
Proof. by repeat split. Qed.

Lemma generator_failure_in_reply_witness :
  Raw.member_query desk_data = VStr (py "desk") ∧
  @str_strip numeral_runtime (py "desk") ≠ [] ∧
  Raw.search_products_serper (raw_world [mug; desk] (Raise out_of_quota))
    (@Raw.sent_query plain_text desk_data (py "desk"))
    (Raw.member_num_results desk_data)
  = ([Raw.SerperPost (py "Office desk") (VInt 10)], Ok [mug; desk]) ∧
  @Raw.filter_by_budget numeral_runtime [mug; desk]
    (Raw.member_budget_range desk_data) = Ok [desk] ∧
  @Raw.sent_preferences plain_text desk_data (py "desk")
  = Ok (py "desk. Important features: oak, wide") ∧
  @average_rating numeral_runtime [desk] = Ok 3.0%Q ∧
  ∃ r,
    @Raw.search numeral_runtime plain_text
                (raw_world [mug; desk] (Raise out_of_quota)) (VDict desk_data)
    = ([Raw.SerperPost (py "Office desk") (VInt 10)]
       ++ [Raw.GeminiGenerate
             (Raw.sent_prompt desk_data [desk]
                (py "desk. Important features: oak, wide"))],
       Ok (Raw.SuccessBody r, 200))
    ∧ Raw.resp_success r = true
    ∧ Raw.resp_products r = [desk]
    ∧ Raw.resp_ai_recommendations r
      = py "Error generating recommendations: " ++ exn_str out_of_quota.
Proof.
  split; [done|]. split; [done|]. split; [done|]. split; [done|].
  split; [done|]. split; [done|].
  by apply (@generator_failure_in_reply numeral_runtime plain_text
              (raw_world [mug; desk] (Raise out_of_quota)) desk_data
              (py "desk") [Raw.SerperPost (py "Office desk") (VInt 10)]
              [mug; desk] [desk] (py "desk. Important features: oak, wide")
              3.0%Q out_of_quota).
Defined.

Lemma raise_points_witness :
  @Raw.search numeral_runtime plain_text (raw_world [mug; desk] (Ok []))
              (VDict numbered_features_data)
  = ([Raw.SerperPost (py "desk") (VInt 10)],
     Raise (Exn TypeError
              (py "sequence item 1: expected str instance, int found"))) ∧
  @Raw.sent_preferences plain_text numbered_features_data (py "desk")
  = Raise (Exn TypeError
             (py "sequence item 1: expected str instance, int found")) ∧
  ∀ prompt,
    Raw.GeminiGenerate prompt ∉ [Raw.SerperPost (py "desk") (VInt 10)].
Proof.
  split; [done|]. split; [done|].
  destruct (@raise_points numeral_runtime plain_text
              (raw_world [mug; desk] (Ok [])) (VDict numbered_features_data)
              _ _ eq_refl)
    as [(Hno & _)|(data & [= <-] & [(Hno & _)|Hrest])].
  - by destruct (Hno numbered_features_data).
  - by destruct (Hno (py "desk")).
  - destruct Hrest as (user_query & trace' & products & Hq & Hc & Hgen & _).
    injection Hq as <-. injection Hc as <- _. exact Hgen.
Defined.
